(** * Canvas state, history engine and the three store backends

    A shallow embedding of the store layer of the canvas drawing application:
    [store/types.ts], [store/utils.ts], [store/contextStore.tsx],
    [store/reduxStore.ts], [store/zustandStore.ts] and the store switching of
    [components/StoreManager.tsx].

    JavaScript values are modelled as follows: a [number] that holds an index,
    a length or a timestamp is a [Z]; a coordinate is a binary64 [float];
    arrays are lists; a thrown exception is the [Throw] outcome of [Result]. *)

From Stdlib Require Import ZArith List String Ascii Bool Lia Floats DecimalString.
From Stdlib Require DecimalPos DecimalZ.
Import ListNotations.
Local Open Scope string_scope.
Local Open Scope list_scope.
Local Open Scope Z_scope.

Set Implicit Arguments.

(* ------------------------------------------------------------------ *)
(** ** JavaScript runtime: exceptions and array primitives            *)
(* ------------------------------------------------------------------ *)

Inductive JsError : Type :=
| TypeError                      (* spreading [undefined] *)
| Error (message : string).      (* [throw new Error(message)] *)

Inductive Result (A : Type) : Type :=
| Ok (a : A)
| Throw (e : JsError).

Arguments Ok {A} a.
Arguments Throw {A} e.

Definition bindR {A B : Type} (r : Result A) (k : A -> Result B) : Result B :=
  match r with
  | Ok a => k a
  | Throw e => Throw e
  end.

Section JsArray.
Variable A : Type.

(** [arr.length] *)
Definition js_length (arr : list A) : Z := Z.of_nat (List.length arr).

(** [arr[i]]: [None] stands for [undefined]. *)
Definition js_index (arr : list A) (i : Z) : option A :=
  if i <? 0 then None else nth_error arr (Z.to_nat i).

(** Relative index of [Array.prototype.slice]: a negative argument counts
    from the end, and the result is clamped to [0 .. length]. *)
Definition js_relative (len k : Z) : Z :=
  if k <? 0 then Z.max (len + k) 0 else Z.min k len.

(** [arr.slice(start, end)] *)
Definition js_slice (arr : list A) (start fin : Z) : list A :=
  let len := js_length arr in
  let k := js_relative len start in
  let final := js_relative len fin in
  firstn (Z.to_nat (final - k)) (skipn (Z.to_nat k) arr).

(** [arr.slice(start)] *)
Definition js_slice_from (arr : list A) (start : Z) : list A :=
  js_slice arr start (js_length arr).

(** [[...arr]]: spreading [undefined] throws a TypeError. *)
Definition js_spread (arr : option (list A)) : Result (list A) :=
  match arr with
  | Some l => Ok l
  | None => Throw TypeError
  end.
End JsArray.

(* ------------------------------------------------------------------ *)
(** ** store/types.ts                                                 *)
(* ------------------------------------------------------------------ *)

Record Point : Type := { x : float; y : float }.

Inductive DrawingTool : Type := pen | rectangle | circle.

Record Shape : Type := {
  id : string;
  points : list Point;
  color : string;
  type : DrawingTool;
  timestamp : Z
}.

Record CanvasState : Type := {
  shapes : list Shape;
  currentColor : string;
  currentTool : DrawingTool;
  history : list (list Shape);
  historyIndex : Z;
  isDrawing : bool;
  currentPath : list Point
}.

(** The argument of [addShape]: [Omit<Shape, 'id' | 'timestamp'>]. *)
Record ShapeData : Type := {
  data_points : list Point;
  data_color : string;
  data_type : DrawingTool
}.

(** The [CanvasActions] interface, one constructor per method. *)
Inductive Command : Type :=
| AddShape (shape : ShapeData)
| ChangeColor (c : string)
| ChangeTool (tool : DrawingTool)
| StartDrawing (startPoint : Point)
| ContinueDrawing (point : Point)
| FinishDrawing
| Undo
| Redo
| Clear
| Reset.

Definition initialCanvasState : CanvasState := {|
  shapes := [];
  currentColor := "#000000";
  currentTool := pen;
  history := [[]];
  historyIndex := 0;
  isDrawing := false;
  currentPath := []
|}.

(** Field assignment, [{ ...state, f: v }] or [draft.f = v]. *)
Definition set_shapes (v : list Shape) (s : CanvasState) : CanvasState :=
  {| shapes := v; currentColor := currentColor s; currentTool := currentTool s;
     history := history s; historyIndex := historyIndex s;
     isDrawing := isDrawing s; currentPath := currentPath s |}.

Definition set_currentColor (v : string) (s : CanvasState) : CanvasState :=
  {| shapes := shapes s; currentColor := v; currentTool := currentTool s;
     history := history s; historyIndex := historyIndex s;
     isDrawing := isDrawing s; currentPath := currentPath s |}.

Definition set_currentTool (v : DrawingTool) (s : CanvasState) : CanvasState :=
  {| shapes := shapes s; currentColor := currentColor s; currentTool := v;
     history := history s; historyIndex := historyIndex s;
     isDrawing := isDrawing s; currentPath := currentPath s |}.

Definition set_history (v : list (list Shape)) (s : CanvasState) : CanvasState :=
  {| shapes := shapes s; currentColor := currentColor s; currentTool := currentTool s;
     history := v; historyIndex := historyIndex s;
     isDrawing := isDrawing s; currentPath := currentPath s |}.

Definition set_historyIndex (v : Z) (s : CanvasState) : CanvasState :=
  {| shapes := shapes s; currentColor := currentColor s; currentTool := currentTool s;
     history := history s; historyIndex := v;
     isDrawing := isDrawing s; currentPath := currentPath s |}.

Definition set_isDrawing (v : bool) (s : CanvasState) : CanvasState :=
  {| shapes := shapes s; currentColor := currentColor s; currentTool := currentTool s;
     history := history s; historyIndex := historyIndex s;
     isDrawing := v; currentPath := currentPath s |}.

Definition set_currentPath (v : list Point) (s : CanvasState) : CanvasState :=
  {| shapes := shapes s; currentColor := currentColor s; currentTool := currentTool s;
     history := history s; historyIndex := historyIndex s;
     isDrawing := isDrawing s; currentPath := v |}.

(* ------------------------------------------------------------------ *)
(** ** store/utils.ts                                                 *)
(* ------------------------------------------------------------------ *)

(** What one call of [createShape] reads from its environment: the clock,
    twice, and the random generator, once. [random36] is the text of
    [Math.random().toString(36)]. *)
Record Env : Type := {
  now_id : Z;          (* Date.now() inside generateShapeId *)
  random36 : string;   (* Math.random().toString(36) *)
  now_timestamp : Z    (* Date.now() for the timestamp field *)
}.

Definition show_number (n : Z) : string := NilZero.string_of_int (Z.to_int n).

Definition generateShapeId (e : Env) : string :=
  ("shape_" ++ show_number (now_id e) ++ "_" ++ substring 2 9 (random36 e))%string.

Definition createShape (e : Env) (pts : list Point) (c : string)
    (tool : DrawingTool) : Shape :=
  {| id := generateShapeId e;
     points := pts;
     color := c;
     type := tool;
     timestamp := now_timestamp e |}.

Definition defaultMaxHistorySize : Z := 50.

Definition addToHistory (currentHistory : list (list Shape)) (currentIndex : Z)
    (newState : list Shape) (maxHistorySize : Z) : list (list Shape) * Z :=
  let truncatedHistory := js_slice currentHistory 0 (currentIndex + 1) in
  let newHistory := truncatedHistory ++ [newState] in
  let finalHistory :=
    if js_length newHistory >? maxHistorySize
    then js_slice_from newHistory (- maxHistorySize)
    else newHistory in
  (finalHistory, js_length finalHistory - 1).

Definition canUndo (historyIndex : Z) : bool := historyIndex >? 0.

Definition canRedo (historyIndex historyLength : Z) : bool :=
  historyIndex <? historyLength - 1.

(** A backend's transition: the environment read by [createShape], the
    command, the state before; the state after, or the exception thrown. *)
Definition Transition : Type := Env -> Command -> CanvasState -> Result CanvasState.

(* ------------------------------------------------------------------ *)
(** ** store/contextStore.tsx                                         *)
(* ------------------------------------------------------------------ *)

Module ContextStore.

Inductive CanvasActionType : Type :=
| ADD_SHAPE (payload : ShapeData)
| CHANGE_COLOR (payload : string)
| CHANGE_TOOL (payload : DrawingTool)
| START_DRAWING (payload : Point)
| CONTINUE_DRAWING (payload : Point)
| FINISH_DRAWING
| UNDO
| REDO
| CLEAR
| RESET.

Definition canvasReducer (e : Env) (state : CanvasState)
    (action : CanvasActionType) : Result CanvasState :=
  match action with
  | ADD_SHAPE payload =>
      let newShape :=
        createShape e (data_points payload) (data_color payload) (data_type payload) in
      let newShapes := shapes state ++ [newShape] in
      let '(history', historyIndex') :=
        addToHistory (history state) (historyIndex state) newShapes
          defaultMaxHistorySize in
      Ok (set_historyIndex historyIndex'
            (set_history history' (set_shapes newShapes state)))
  | CHANGE_COLOR payload => Ok (set_currentColor payload state)
  | CHANGE_TOOL payload => Ok (set_currentTool payload state)
  | START_DRAWING payload =>
      Ok (set_currentPath [payload] (set_isDrawing true state))
  | CONTINUE_DRAWING payload =>
      if negb (isDrawing state) then Ok state
      else Ok (set_currentPath (currentPath state ++ [payload]) state)
  | FINISH_DRAWING =>
      if negb (isDrawing state) || (js_length (currentPath state) =? 0)
      then Ok (set_currentPath [] (set_isDrawing false state))
      else
        let newShape :=
          createShape e (currentPath state) (currentColor state) (currentTool state) in
        let newShapes := shapes state ++ [newShape] in
        let '(history', historyIndex') :=
          addToHistory (history state) (historyIndex state) newShapes
            defaultMaxHistorySize in
        Ok (set_currentPath []
              (set_isDrawing false
                 (set_historyIndex historyIndex'
                    (set_history history' (set_shapes newShapes state)))))
  | UNDO =>
      if negb (canUndo (historyIndex state)) then Ok state
      else
        let newHistoryIndex := historyIndex state - 1 in
        bindR (js_spread (js_index (history state) newHistoryIndex))
          (fun restored =>
             Ok (set_currentPath []
                   (set_isDrawing false
                      (set_shapes restored
                         (set_historyIndex newHistoryIndex state)))))
  | REDO =>
      if negb (canRedo (historyIndex state) (js_length (history state)))
      then Ok state
      else
        let newHistoryIndex := historyIndex state + 1 in
        bindR (js_spread (js_index (history state) newHistoryIndex))
          (fun restored =>
             Ok (set_currentPath []
                   (set_isDrawing false
                      (set_shapes restored
                         (set_historyIndex newHistoryIndex state)))))
  | CLEAR =>
      let newShapes : list Shape := [] in
      let '(history', historyIndex') :=
        addToHistory (history state) (historyIndex state) newShapes
          defaultMaxHistorySize in
      Ok (set_currentPath []
            (set_isDrawing false
               (set_historyIndex historyIndex'
                  (set_history history' (set_shapes newShapes state)))))
  | RESET => Ok initialCanvasState
  end.

(** The action creators of [CanvasProvider]: each method dispatches one
    action to the reducer. *)
Definition actions (c : Command) : CanvasActionType :=
  match c with
  | AddShape shapeData => ADD_SHAPE shapeData
  | ChangeColor c => CHANGE_COLOR c
  | ChangeTool tool => CHANGE_TOOL tool
  | StartDrawing startPoint => START_DRAWING startPoint
  | ContinueDrawing point => CONTINUE_DRAWING point
  | FinishDrawing => FINISH_DRAWING
  | Undo => UNDO
  | Redo => REDO
  | Clear => CLEAR
  | Reset => RESET
  end.

Definition dispatch : Transition :=
  fun e c state => canvasReducer e state (actions c).

End ContextStore.

(* ------------------------------------------------------------------ *)
(** ** Immer drafts                                                   *)
(* ------------------------------------------------------------------ *)

(** A recipe runs over a draft of the state, assigns to its fields one after
    the other, and may throw. The Redux slice and the Zustand store are both
    written in this style. *)
Module Immer.

Definition Draft (A : Type) : Type := CanvasState -> Result (A * CanvasState).

Definition ret {A : Type} (a : A) : Draft A := fun d => Ok (a, d).

Definition bind {A B : Type} (m : Draft A) (k : A -> Draft B) : Draft B :=
  fun d =>
    match m d with
    | Ok (a, d') => k a d'
    | Throw e => Throw e
    end.

(** [draft.f] *)
Definition read {A : Type} (f : CanvasState -> A) : Draft A :=
  fun d => Ok (f d, d).

(** [draft.f = v] *)
Definition assign {A : Type} (setter : A -> CanvasState -> CanvasState)
    (v : A) : Draft unit :=
  fun d => Ok (tt, setter v d).

Definition lift {A : Type} (r : Result A) : Draft A :=
  fun d =>
    match r with
    | Ok a => Ok (a, d)
    | Throw e => Throw e
    end.

(** A recipe returns either nothing (the draft is the next state) or a
    replacement state. When it throws, the base state is left as it was and
    the exception goes to the caller. *)
Definition Recipe : Type := Draft (option CanvasState).

Definition produce (recipe : Recipe) (base : CanvasState) : Result CanvasState :=
  match recipe base with
  | Ok (Some replacement, _) => Ok replacement
  | Ok (None, draft) => Ok draft
  | Throw e => Throw e
  end.

Definition void (m : Draft unit) : Recipe := bind m (fun _ => ret None).

Definition replace_with (s : CanvasState) : Recipe := ret (Some s).

End Immer.

Declare Scope draft_scope.
Delimit Scope draft_scope with draft.
Notation "v <- m ;; k" := (Immer.bind m (fun v => k))
  (at level 61, m at next level, right associativity) : draft_scope.
Notation "m ;; k" := (Immer.bind m (fun _ => k))
  (at level 61, right associativity) : draft_scope.

(* ------------------------------------------------------------------ *)
(** ** store/reduxStore.ts                                            *)
(* ------------------------------------------------------------------ *)

Module ReduxStore.
Import Immer.
Local Open Scope draft_scope.

(** The case reducers of [canvasSlice], in the order of the source. *)

Definition addShape (e : Env) (payload : ShapeData) : Recipe :=
  void (
    let newShape :=
      createShape e (data_points payload) (data_color payload) (data_type payload) in
    sh <- read shapes ;;
    assign set_shapes (sh ++ [newShape]) ;;
    h <- read history ;;
    i <- read historyIndex ;;
    sh' <- read shapes ;;
    let '(history', historyIndex') := addToHistory h i sh' defaultMaxHistorySize in
    assign set_history history' ;;
    assign set_historyIndex historyIndex').

Definition changeColor (payload : string) : Recipe :=
  void (assign set_currentColor payload).

Definition changeTool (payload : DrawingTool) : Recipe :=
  void (assign set_currentTool payload).

Definition startDrawing (payload : Point) : Recipe :=
  void (
    assign set_isDrawing true ;;
    assign set_currentPath [payload]).

Definition continueDrawing (payload : Point) : Recipe :=
  void (
    drawing <- read isDrawing ;;
    if drawing
    then path <- read currentPath ;; assign set_currentPath (path ++ [payload])
    else ret tt).

Definition finishDrawing (e : Env) : Recipe :=
  void (
    drawing <- read isDrawing ;;
    path <- read currentPath ;;
    if drawing && (js_length path >? 0)
    then
      c <- read currentColor ;;
      tool <- read currentTool ;;
      let newShape := createShape e path c tool in
      sh <- read shapes ;;
      assign set_shapes (sh ++ [newShape]) ;;
      assign set_isDrawing false ;;
      assign set_currentPath [] ;;
      h <- read history ;;
      i <- read historyIndex ;;
      sh' <- read shapes ;;
      let '(history', historyIndex') := addToHistory h i sh' defaultMaxHistorySize in
      assign set_history history' ;;
      assign set_historyIndex historyIndex'
    else
      assign set_isDrawing false ;;
      assign set_currentPath []).

Definition undo : Recipe :=
  void (
    i <- read historyIndex ;;
    if canUndo i
    then
      assign set_historyIndex (i - 1) ;;
      h <- read history ;;
      i' <- read historyIndex ;;
      restored <- lift (js_spread (js_index h i')) ;;
      assign set_shapes restored ;;
      assign set_isDrawing false ;;
      assign set_currentPath []
    else ret tt).

Definition redo : Recipe :=
  void (
    i <- read historyIndex ;;
    h <- read history ;;
    if canRedo i (js_length h)
    then
      assign set_historyIndex (i + 1) ;;
      h' <- read history ;;
      i' <- read historyIndex ;;
      restored <- lift (js_spread (js_index h' i')) ;;
      assign set_shapes restored ;;
      assign set_isDrawing false ;;
      assign set_currentPath []
    else ret tt).

Definition clear : Recipe :=
  void (
    assign set_shapes [] ;;
    h <- read history ;;
    i <- read historyIndex ;;
    sh <- read shapes ;;
    let '(history', historyIndex') := addToHistory h i sh defaultMaxHistorySize in
    assign set_history history' ;;
    assign set_historyIndex historyIndex' ;;
    assign set_isDrawing false ;;
    assign set_currentPath []).

Definition reset : Recipe := replace_with initialCanvasState.

(** [canvasSlice.reducer] applied to the action that the matching action
    creator builds, as [useReduxState] dispatches it. *)
Definition reducer (e : Env) (state : CanvasState) (c : Command) : Result CanvasState :=
  produce
    match c with
    | AddShape shapeData => addShape e shapeData
    | ChangeColor c => changeColor c
    | ChangeTool tool => changeTool tool
    | StartDrawing startPoint => startDrawing startPoint
    | ContinueDrawing point => continueDrawing point
    | FinishDrawing => finishDrawing e
    | Undo => undo
    | Redo => redo
    | Clear => clear
    | Reset => reset
    end
    state.

Definition dispatch : Transition := fun e c state => reducer e state c.

End ReduxStore.

(* ------------------------------------------------------------------ *)
(** ** store/zustandStore.ts                                          *)
(* ------------------------------------------------------------------ *)

Module ZustandStore.
Import Immer.
Local Open Scope draft_scope.

(** An action of the store reads the current state with [get] and updates
    it with [set]; both are threaded through the same monad as a draft. *)
Definition Store (A : Type) : Type := Draft A.

Definition get : Store CanvasState := fun st => Ok (st, st).

(** [set(recipe)] under the immer middleware: the recipe is run by
    [produce]; the state fields of its result are merged over the store. *)
Definition set (recipe : Recipe) : Store unit :=
  fun st =>
    match produce recipe st with
    | Ok st' => Ok (tt, st')
    | Throw e => Throw e
    end.

Definition addShape (e : Env) (shapeData : ShapeData) : Store unit :=
  set (void (
    let newShape :=
      createShape e (data_points shapeData) (data_color shapeData)
        (data_type shapeData) in
    sh <- read shapes ;;
    assign set_shapes (sh ++ [newShape]) ;;
    h <- read history ;;
    i <- read historyIndex ;;
    sh' <- read shapes ;;
    let '(history', historyIndex') := addToHistory h i sh' defaultMaxHistorySize in
    assign set_history history' ;;
    assign set_historyIndex historyIndex')).

Definition changeColor (c : string) : Store unit :=
  set (void (assign set_currentColor c)).

Definition changeTool (tool : DrawingTool) : Store unit :=
  set (void (assign set_currentTool tool)).

Definition startDrawing (startPoint : Point) : Store unit :=
  set (void (
    assign set_isDrawing true ;;
    assign set_currentPath [startPoint])).

Definition continueDrawing (point : Point) : Store unit :=
  set (void (
    drawing <- read isDrawing ;;
    if drawing
    then path <- read currentPath ;; assign set_currentPath (path ++ [point])
    else ret tt)).

Definition finishDrawing (e : Env) : Store unit :=
  state <- get ;;
  if isDrawing state && (js_length (currentPath state) >? 0)
  then
    let shapeData :=
      {| data_points := currentPath state;
         data_color := currentColor state;
         data_type := currentTool state |} in
    set (void (
      let newShape :=
        createShape e (data_points shapeData) (data_color shapeData)
          (data_type shapeData) in
      sh <- read shapes ;;
      assign set_shapes (sh ++ [newShape]) ;;
      assign set_isDrawing false ;;
      assign set_currentPath [] ;;
      h <- read history ;;
      i <- read historyIndex ;;
      sh' <- read shapes ;;
      let '(history', historyIndex') := addToHistory h i sh' defaultMaxHistorySize in
      assign set_history history' ;;
      assign set_historyIndex historyIndex'))
  else
    set (void (
      assign set_isDrawing false ;;
      assign set_currentPath [])).

Definition undo : Store unit :=
  set (void (
    i <- read historyIndex ;;
    if canUndo i
    then
      assign set_historyIndex (i - 1) ;;
      h <- read history ;;
      i' <- read historyIndex ;;
      restored <- lift (js_spread (js_index h i')) ;;
      assign set_shapes restored ;;
      assign set_isDrawing false ;;
      assign set_currentPath []
    else ret tt)).

Definition redo : Store unit :=
  set (void (
    i <- read historyIndex ;;
    h <- read history ;;
    if canRedo i (js_length h)
    then
      assign set_historyIndex (i + 1) ;;
      h' <- read history ;;
      i' <- read historyIndex ;;
      restored <- lift (js_spread (js_index h' i')) ;;
      assign set_shapes restored ;;
      assign set_isDrawing false ;;
      assign set_currentPath []
    else ret tt)).

Definition clear : Store unit :=
  set (void (
    assign set_shapes [] ;;
    h <- read history ;;
    i <- read historyIndex ;;
    sh <- read shapes ;;
    let '(history', historyIndex') := addToHistory h i sh defaultMaxHistorySize in
    assign set_history history' ;;
    assign set_historyIndex historyIndex' ;;
    assign set_isDrawing false ;;
    assign set_currentPath [])).

Definition reset : Store unit := set (replace_with initialCanvasState).

(** Calling the method of [useZustandStore] that a command names. *)
Definition dispatch : Transition :=
  fun e c state =>
    let action :=
      match c with
      | AddShape shapeData => addShape e shapeData
      | ChangeColor c => changeColor c
      | ChangeTool tool => changeTool tool
      | StartDrawing startPoint => startDrawing startPoint
      | ContinueDrawing point => continueDrawing point
      | FinishDrawing => finishDrawing e
      | Undo => undo
      | Redo => redo
      | Clear => clear
      | Reset => reset
      end in
    match action state with
    | Ok (_, state') => Ok state'
    | Throw err => Throw err
    end.

End ZustandStore.

(* ------------------------------------------------------------------ *)
(** ** hooks/storeAdapter.ts, hooks/useCanvasStoreHooks.ts and
       components/StoreManager.tsx                                    *)
(* ------------------------------------------------------------------ *)

Inductive StoreType : Type := zustand | redux | context.

Definition StoreType_eqb (a b : StoreType) : bool :=
  match a, b with
  | zustand, zustand | redux, redux | context, context => true
  | _, _ => false
  end.

(** The transition function behind each entry of [STORE_ADAPTERS]. *)
Definition transitionOf (storeType : StoreType) : Transition :=
  match storeType with
  | zustand => ZustandStore.dispatch
  | redux => ReduxStore.dispatch
  | context => ContextStore.dispatch
  end.

Module StoreManager.

(** The state the application holds: the [currentStore] of [StoreManager],
    the two module-level stores [useZustandStore] and [reduxStore], and the
    reducer state of [CanvasProvider], which exists only while that
    provider is mounted. *)
Record App : Type := {
  currentStore : StoreType;
  zustandStore : CanvasState;
  reduxStore : CanvasState;
  canvasProvider : option CanvasState
}.

(** [<StoreManager>] with no props: [defaultStore = 'zustand']; both
    module-level stores start from [initialCanvasState]. *)
Definition mount (defaultStore : StoreType) : App :=
  {| currentStore := defaultStore;
     zustandStore := initialCanvasState;
     reduxStore := initialCanvasState;
     canvasProvider :=
       match defaultStore with
       | context => Some initialCanvasState
       | _ => None
       end |}.

(** [handleStoreChange]: nothing when the store is the current one, else
    [setCurrentStore(newStoreType)]. On the next render [UniversalProvider]
    picks another provider component, so [CanvasProvider] is mounted afresh
    ([useReducer(canvasReducer, initialCanvasState)]) when the new store is
    the context one and unmounted otherwise. *)
Definition handleStoreChange (newStoreType : StoreType) (app : App) : App :=
  if StoreType_eqb newStoreType (currentStore app) then app
  else
    {| currentStore := newStoreType;
       zustandStore := zustandStore app;
       reduxStore := reduxStore app;
       canvasProvider :=
         match newStoreType with
         | context => Some initialCanvasState
         | _ => None
         end |}.

(** The state fields of [useCanvasStore()]: [STORE_ADAPTERS[storeType]()]. *)
Definition useCanvasStore (app : App) : Result CanvasState :=
  match currentStore app with
  | zustand => Ok (zustandStore app)
  | redux => Ok (reduxStore app)
  | context =>
      match canvasProvider app with
      | Some state => Ok state
      | None => Throw (Error "useCanvasState must be used within a CanvasProvider")
      end
  end.

(** Calling a method of [useCanvasStore()]. *)
Definition call (e : Env) (c : Command) (app : App) : Result App :=
  match currentStore app with
  | zustand =>
      bindR (ZustandStore.dispatch e c (zustandStore app)) (fun state' =>
        Ok {| currentStore := currentStore app; zustandStore := state';
              reduxStore := reduxStore app; canvasProvider := canvasProvider app |})
  | redux =>
      bindR (ReduxStore.dispatch e c (reduxStore app)) (fun state' =>
        Ok {| currentStore := currentStore app; zustandStore := zustandStore app;
              reduxStore := state'; canvasProvider := canvasProvider app |})
  | context =>
      match canvasProvider app with
      | Some state =>
          bindR (ContextStore.dispatch e c state) (fun state' =>
            Ok {| currentStore := currentStore app; zustandStore := zustandStore app;
                  reduxStore := reduxStore app; canvasProvider := Some state' |})
      | None => Throw (Error "useCanvasState must be used within a CanvasProvider")
      end
  end.

End StoreManager.

(* ------------------------------------------------------------------ *)
(** ** Command sequences                                              *)
(* ------------------------------------------------------------------ *)

(** The clock and the random generator over a run: [world k] is what the
    [k]-th command reads. *)
Definition World : Type := nat -> Env.

Definition later (world : World) : World := fun k => world (S k).

Fixpoint replay (step : Transition) (world : World) (state : CanvasState)
    (commands : list Command) : Result CanvasState :=
  match commands with
  | [] => Ok state
  | c :: rest =>
      match step (world O) c state with
      | Ok state' => replay step (later world) state' rest
      | Throw e => Throw e
      end
  end.

(** States a backend reaches from [initialCanvasState]. *)
Definition reachable (s : CanvasState) : Prop :=
  exists (world : World) (commands : list Command),
    replay ContextStore.dispatch world initialCanvasState commands = Ok s.

Definition reachableOn (storeType : StoreType) (s : CanvasState) : Prop :=
  exists (world : World) (commands : list Command),
    replay (transitionOf storeType) world initialCanvasState commands = Ok s.

(** [n] calls of one command in a row. *)
Definition times (n : nat) (c : Command) : list Command := repeat c n.

(** The invariant of the data model. *)
Record well_formed (s : CanvasState) : Prop := {
  wf_index_lower : 0 <= historyIndex s;
  wf_index_upper : historyIndex s < js_length (history s);
  wf_current : js_index (history s) (historyIndex s) = Some (shapes s);
  wf_cap : js_length (history s) <= defaultMaxHistorySize;
  wf_idle : isDrawing s = false -> currentPath s = []
}.

(* ------------------------------------------------------------------ *)
(** ** The history engine in the words of the specification           *)
(* ------------------------------------------------------------------ *)

(** "Drop entries from the front until length equals [maxSize]", done while
    the length exceeds [maxSize]. *)
Fixpoint drop_from_front (A : Type) (maxSize : Z) (entries : list A) : list A :=
  match entries with
  | [] => []
  | _ :: rest =>
      if js_length entries >? maxSize then drop_from_front maxSize rest else entries
  end.

(** [commit(history, cursor, newShapeSet, maxSize)]: truncate to
    [history[0..cursor]] inclusive, append the new entry, drop from the front
    down to [maxSize]; the new cursor is the last position. *)
Definition commit_spec (hist : list (list Shape)) (cursor : Z)
    (newShapeSet : list Shape) (maxSize : Z) : list (list Shape) * Z :=
  let truncated := firstn (Z.to_nat (cursor + 1)) hist in
  let result := drop_from_front maxSize (truncated ++ [newShapeSet]) in
  (result, js_length result - 1).

(* ------------------------------------------------------------------ *)
(** ** store/utils.ts: validation and rendering                       *)
(* ------------------------------------------------------------------ *)

(** The character class [[0-9A-Fa-f]]. *)
Definition isHexDigit (c : ascii) : bool :=
  let n := N_of_ascii c in
  (((48 <=? n) && (n <=? 57)) || ((65 <=? n) && (n <=? 70)) ||
   ((97 <=? n) && (n <=? 102)))%N.

(** [[0-9A-Fa-f]{n}$]: exactly [n] hexadecimal digits, then the end. *)
Fixpoint hexDigitsToEnd (n : nat) (s : string) : bool :=
  match n, s with
  | O, EmptyString => true
  | S n', String c rest => isHexDigit c && hexDigitsToEnd n' rest
  | _, _ => false
  end.

(** [/^#[0-9A-Fa-f]{6}$/.test(color)] *)
Definition isValidHexColor (color : string) : bool :=
  match color with
  | String "#" rest => hexDigitsToEnd 6 rest
  | _ => false
  end.

(** [AVAILABLE_COLORS] of store/types.ts. *)
Definition AVAILABLE_COLORS : list string :=
  ["#000000"; "#FF0000"; "#00FF00"; "#0000FF"; "#FFFF00";
   "#FF00FF"; "#00FFFF"; "#FFA500"; "#800080"; "#008000"].

(** The calls a function makes on a [CanvasRenderingContext2D], in order;
    an assignment to a property of the context is a call of its own. *)
Module Canvas2D.
Inductive Op : Type :=
| save
| restore
| set_strokeStyle (v : string)
| set_lineWidth (v : float)
| set_lineCap (v : string)
| set_lineJoin (v : string)
| set_globalAlpha (v : float)
| beginPath
| moveTo (px py : float)
| lineTo (px py : float)
| stroke
| strokeRect (px py w h : float)
| arc (px py radius startAngle endAngle : float)
| clearRect (px py w h : float).

(** The calls that put ink on the canvas. *)
Definition paints (op : Op) : bool :=
  match op with
  | stroke | strokeRect _ _ _ _ => true
  | _ => false
  end.

Definition is_save (op : Op) : bool :=
  match op with save => true | _ => false end.

Definition is_restore (op : Op) : bool :=
  match op with restore => true | _ => false end.
End Canvas2D.

Section Rendering.
Import Canvas2D.
(** [Math.pow] and [Math.sqrt] of the host. *)
Variables (Math_pow : float -> float -> float) (Math_sqrt : float -> float).

Definition Math_PI : float := 0x1.921fb54442d18p+1%float.

(** The body of the [switch] shared by [renderShape] and
    [renderCurrentPath], for a non-empty point list. *)
Definition drawPoints (tool : DrawingTool) (firstPoint : Point)
    (restPoints : list Point) : list Op :=
  let pts := firstPoint :: restPoints in
  match tool with
  | pen =>
      moveTo (x firstPoint) (y firstPoint)
      :: map (fun p => lineTo (x p) (y p)) restPoints ++ [stroke]
  | rectangle =>
      if js_length pts >=? 2 then
        let start := firstPoint in
        let final := last pts firstPoint in
        let width := (x final - x start)%float in
        let height := (y final - y start)%float in
        [strokeRect (x start) (y start) width height]
      else []
  | circle =>
      if js_length pts >=? 2 then
        let center := firstPoint in
        let edge := last pts firstPoint in
        let radius :=
          Math_sqrt (Math_pow (x edge - x center) 2 + Math_pow (y edge - y center) 2)%float in
        [beginPath; arc (x center) (y center) radius 0 (2 * Math_PI)%float; stroke]
      else []
  end.

Definition renderShape (shape : Shape) : list Op :=
  match points shape with
  | [] => []
  | firstPoint :: restPoints =>
      [save; set_strokeStyle (color shape); set_lineWidth 2; set_lineCap "round";
       set_lineJoin "round"; beginPath]
      ++ drawPoints (type shape) firstPoint restPoints
      ++ [restore]
  end.

(** [canvasWidth] and [canvasHeight] are [ctx.canvas.width] and
    [ctx.canvas.height]. *)
Definition renderAllShapes (canvasWidth canvasHeight : float)
    (shapes : list Shape) : list Op :=
  clearRect 0 0 canvasWidth canvasHeight :: flat_map renderShape shapes.

Definition renderCurrentPath (pts : list Point) (c : string)
    (tool : DrawingTool) : list Op :=
  match pts with
  | [] => []
  | firstPoint :: restPoints =>
      [save; set_strokeStyle c; set_lineWidth 2; set_lineCap "round";
       set_lineJoin "round"; set_globalAlpha 0x1.6666666666666p-1; beginPath]
      ++ drawPoints tool firstPoint restPoints
      ++ [restore]
  end.
End Rendering.

(* ------------------------------------------------------------------ *)
(** ** components/Toolbar.tsx                                         *)
(* ------------------------------------------------------------------ *)

Module Toolbar.

(** [onChange] of the history dropdown. [targetIndex] is the result of
    [parseInt(e.target.value)], [None] for [NaN]; every call of
    [canvasStore.undo()] or [canvasStore.redo()] acts on the state the call
    before it left. *)
Definition onHistoryChange (step : Transition) (world : World)
    (targetIndex : option Z) (canvasStore : CanvasState) : Result CanvasState :=
  match targetIndex with
  | None => Ok canvasStore
  | Some targetIndex =>
      let steps := targetIndex - historyIndex canvasStore in
      if steps <? 0
      then replay step world canvasStore (times (Z.to_nat (Z.abs steps)) Undo)
      else if steps >? 0
      then replay step world canvasStore (times (Z.to_nat steps) Redo)
      else Ok canvasStore
  end.

End Toolbar.

(* ------------------------------------------------------------------ *)
(** ** components/CanvasEditor.tsx                                    *)
(* ------------------------------------------------------------------ *)

Module CanvasEditor.
Import Canvas2D.

(** What the handlers read of [canvas.getBoundingClientRect()]. *)
Record DOMRect : Type := { left : float; top : float }.

(** [canvasRef.current], when it is not null: its bounding rectangle,
    whether [getContext('2d')] gives a context, and its [width] and
    [height]. *)
Record Canvas : Type := {
  rect : DOMRect;
  has_context : bool;
  width : float;
  height : float
}.

Record Touch : Type := { touch_clientX : float; touch_clientY : float }.

Inductive NativeEvent : Type :=
| MouseEvent (clientX clientY : float)
| TouchEvent (touches changedTouches : list Touch).

Definition getPointFromEvent (canvasRef : option Canvas) (event : NativeEvent)
    : Result Point :=
  match canvasRef with
  | None => Ok {| x := 0; y := 0 |}
  | Some canvas =>
      match event with
      | MouseEvent clientX clientY =>
          Ok {| x := (clientX - left (rect canvas))%float;
                y := (clientY - top (rect canvas))%float |}
      | TouchEvent touches changedTouches =>
          (* event.touches[0] || event.changedTouches[0] *)
          let touch :=
            match js_index touches 0 with
            | Some t => Some t
            | None => js_index changedTouches 0
            end in
          match touch with
          | Some t =>
              Ok {| x := (touch_clientX t - left (rect canvas))%float;
                    y := (touch_clientY t - top (rect canvas))%float |}
          | None => Throw TypeError
          end
      end
  end.

(** [canvas?.getContext('2d')] is there. *)
Definition context_of (canvasRef : option Canvas) : bool :=
  match canvasRef with
  | Some canvas => has_context canvas
  | None => false
  end.

(** A handler returns the state of the store and the calls it made on the
    2D context. *)
Definition Handled : Type := Result (CanvasState * list Op).

Section Handlers.
Variables (step : Transition) (canvasRef : option Canvas).
(** [window.devicePixelRatio] *)
Variable devicePixelRatio : float.

Definition startDrawing (e : Env) (event : NativeEvent)
    (canvasStore : CanvasState) : Handled :=
  bindR (getPointFromEvent canvasRef event) (fun point =>
  bindR (step e (StartDrawing point) canvasStore) (fun canvasStore' =>
    Ok (canvasStore',
        if context_of canvasRef
        then [set_strokeStyle (currentColor canvasStore); set_lineWidth 2;
              beginPath; moveTo (x point) (y point)]
        else []))).

Definition draw (e : Env) (event : NativeEvent)
    (canvasStore : CanvasState) : Handled :=
  if negb (isDrawing canvasStore) then Ok (canvasStore, [])
  else
    bindR (getPointFromEvent canvasRef event) (fun point =>
    bindR (step e (ContinueDrawing point) canvasStore) (fun canvasStore' =>
      Ok (canvasStore',
          if context_of canvasRef
          then [lineTo (x point) (y point); stroke]
          else []))).

Definition stopDrawing (e : Env) (canvasStore : CanvasState) : Handled :=
  if negb (isDrawing canvasStore) then Ok (canvasStore, [])
  else
    bindR (step e FinishDrawing canvasStore) (fun canvasStore' =>
      Ok (canvasStore', [])).

(** The event props of the [<canvas>] element. *)
Inductive CanvasEvent : Type :=
| onMouseDown (event : NativeEvent)
| onMouseMove (event : NativeEvent)
| onMouseUp
| onMouseLeave
| onTouchStart (event : NativeEvent)
| onTouchMove (event : NativeEvent)
| onTouchEnd.

(** The handler each event prop is bound to. *)
Definition handler (e : Env) (ev : CanvasEvent) (canvasStore : CanvasState)
    : Handled :=
  match ev with
  | onMouseDown event | onTouchStart event => startDrawing e event canvasStore
  | onMouseMove event | onTouchMove event => draw e event canvasStore
  | onMouseUp | onMouseLeave | onTouchEnd => stopDrawing e canvasStore
  end.

(** One shape of the redraw effect: nothing for fewer than two points,
    otherwise a polyline through the points, whatever the tool. *)
Definition redrawShape (shape : Shape) : list Op :=
  if js_length (points shape) <? 2 then []
  else
    match points shape with
    | [] => []
    | firstPoint :: restPoints =>
        [beginPath; set_strokeStyle (color shape); set_lineWidth 2;
         set_lineCap "round"; set_lineJoin "round";
         moveTo (x firstPoint) (y firstPoint)]
        ++ map (fun p => lineTo (x p) (y p)) restPoints
        ++ [stroke]
    end.

(** The effect with dependency [[canvasStore.shapes]]: without a canvas or
    a context it returns at once; otherwise it clears the canvas and draws
    every shape. *)
Definition redrawEffect (canvasShapes : list Shape) : list Op :=
  match canvasRef with
  | None => []
  | Some canvas =>
      if has_context canvas
      then clearRect 0 0 (width canvas / devicePixelRatio)
                         (height canvas / devicePixelRatio)
           :: flat_map redrawShape canvasShapes
      else []
  end.

(** Whether the render that follows the event sees another [shapes] array,
    so that the redraw effect runs. Of the three commands the handlers call,
    [startDrawing] and [continueDrawing] leave [shapes] alone on every
    backend ([...state] in the reducer, an untouched field of the draft under
    Immer), and so does [finishDrawing] with nothing to persist; only
    [finishDrawing] that persists a shape builds a new array. The handlers
    reach [finishDrawing] only while [isDrawing] is true. *)
Definition shapes_replaced (ev : CanvasEvent) (canvasStore : CanvasState) : bool :=
  match ev with
  | onMouseUp | onMouseLeave | onTouchEnd =>
      isDrawing canvasStore && (js_length (currentPath canvasStore) >? 0)
  | _ => false
  end.

(** An event: its handler, then the render, then the redraw effect when
    [shapes] was replaced; the calls of both are on the same 2D context. *)
Definition handle (e : Env) (ev : CanvasEvent) (canvasStore : CanvasState)
    : Handled :=
  bindR (handler e ev canvasStore) (fun '(canvasStore', ops) =>
    Ok (canvasStore',
        ops ++ (if shapes_replaced ev canvasStore
                then redrawEffect (shapes canvasStore')
                else []))).

(** A sequence of events, the component rendered again after each one. *)
Fixpoint handleAll (world : World) (events : list CanvasEvent)
    (canvasStore : CanvasState) : Handled :=
  match events with
  | [] => Ok (canvasStore, [])
  | ev :: rest =>
      bindR (handle (world O) ev canvasStore) (fun '(canvasStore', ops) =>
      bindR (handleAll (later world) rest canvasStore') (fun '(final, ops') =>
        Ok (final, ops ++ ops')))
  end.
End Handlers.

End CanvasEditor.

(* ------------------------------------------------------------------ *)
(** ** Runs of the application                                        *)
(* ------------------------------------------------------------------ *)

(** A sequence of calls on [useCanvasStore()], all on the store that is
    current. *)
Fixpoint callAll (world : World) (commands : list Command)
    (app : StoreManager.App) : Result StoreManager.App :=
  match commands with
  | [] => Ok app
  | c :: rest =>
      bindR (StoreManager.call (world O) c app) (callAll (later world) rest)
  end.

(** Every store of the application satisfies the invariant of the data
    model, and [CanvasProvider] is mounted when the context store is the
    current one. *)
Record app_well_formed (app : StoreManager.App) : Prop := {
  app_zustand : well_formed (StoreManager.zustandStore app);
  app_redux : well_formed (StoreManager.reduxStore app);
  app_context :
    match StoreManager.canvasProvider app with
    | Some state => well_formed state
    | None => StoreManager.currentStore app <> context
    end
}.



Definition mouseMoveTo (client : float * float) : CanvasEditor.CanvasEvent :=
  CanvasEditor.onMouseMove (CanvasEditor.MouseEvent (fst client) (snd client)).

(** The events that reach [draw] or [stopDrawing]. *)
Definition not_a_press (ev : CanvasEditor.CanvasEvent) : bool :=
  match ev with
  | CanvasEditor.onMouseDown _ | CanvasEditor.onTouchStart _ => false
  | _ => true
  end.

(** Every character of [s] passes [test]. *)
Fixpoint string_forall (test : ascii -> bool) (s : string) : bool :=
  match s with
  | EmptyString => true
  | String c rest => test c && string_forall test rest
  end.

Definition not_underscore (c : ascii) : bool := negb (Ascii.eqb c "_").

(** The shapes [renderShape] draws something for. *)
Definition has_points (shape : Shape) : bool :=
  match points shape with
  | [] => false
  | _ :: _ => true
  end.

(** The commands that commit an entry to the history in state [s]:
    [addShape], [clear], and [finishDrawing] while a non-empty path is being
    drawn. *)
Definition commits (c : Command) (s : CanvasState) : bool :=
  match c with
  | AddShape _ | Clear => true
  | FinishDrawing => isDrawing s && (js_length (currentPath s) >? 0)
  | _ => false
  end.

(* ------------------------------------------------------------------ *)
(** ** Sample inputs                                                  *)
(* ------------------------------------------------------------------ *)

Definition sampleEnv : Env :=
  {| now_id := 1700000000000;
     random36 := "0.k3j5h2l9x8qz";
     now_timestamp := 1700000000000 |}.

(** A clock that advances by one millisecond per command. *)
Definition sampleWorld : World :=
  fun k =>
    {| now_id := 1700000000000 + Z.of_nat k;
       random36 := "0.k3j5h2l9x8qz";
       now_timestamp := 1700000000000 + Z.of_nat k |}.

Definition point (a b : float) : Point := {| x := a; y := b |}.

(** The stroke of the first scenario of the specification. *)
Definition stroke : list Command :=
  [StartDrawing (point 10 10); ContinueDrawing (point 20 20); FinishDrawing].

Definition testShape : ShapeData :=
  {| data_points := [point 10 10; point 50 50; point 90 10];
     data_color := "#000000";
     data_type := pen |}.

(** Two strokes, then one undo: a history of three entries, cursor on the
    middle one. *)
Definition midHistoryState : CanvasState :=
  Eval vm_compute in
    match replay ContextStore.dispatch sampleWorld initialCanvasState
            (stroke ++ stroke ++ [Undo]) with
    | Ok s => s
    | Throw _ => initialCanvasState
    end.



(** Sixty [clear()] from the initial state: the history is full. *)
Definition fullHistoryState : CanvasState :=
  Eval vm_compute in
    match replay ContextStore.dispatch sampleWorld initialCanvasState (times 60 Clear) with
    | Ok s => s
    | Throw _ => initialCanvasState
    end.

(** A state no run produces: the cursor is beyond the history. *)
Definition strayCursorState : CanvasState := set_historyIndex 5 initialCanvasState.


(** Two shapes added on the default store. *)
Definition twoShapesOnZustand : Result StoreManager.App :=
  bindR (StoreManager.call (sampleWorld 0%nat) (AddShape testShape)
           (StoreManager.mount zustand))
        (StoreManager.call (sampleWorld 1%nat) (AddShape testShape)).

(* ================================================================== *)
(** * Properties                                                      *)
(* ================================================================== *)

(** ** Arrays *)

Section JsArrayFacts.
Variable A : Type.
Implicit Types (l : list A) (n m : Z).

Lemma js_length_nonneg l : 0 <= js_length l.
Proof. unfold js_length. lia. Qed.

Lemma js_length_app l l' : js_length (l ++ l') = js_length l + js_length l'.
Proof. unfold js_length. rewrite length_app. lia. Qed.

Lemma js_slice_prefix l n :
  0 <= n -> js_slice l 0 n = firstn (Z.to_nat n) l.
Proof.
  intros Hn. unfold js_slice, js_relative.
  pose proof (js_length_nonneg l) as Hlen.
  destruct (Z.ltb_spec 0 0) as [?|_]; [lia|].
  destruct (Z.ltb_spec n 0) as [?|_]; [lia|].
  replace (Z.to_nat (Z.min 0 (js_length l))) with O by lia. cbn [skipn].
  destruct (Z.le_ge_cases n (js_length l)) as [Hle|Hge].
  - f_equal. lia.
  - unfold js_length in *. rewrite !firstn_all2 by lia. reflexivity.
Qed.

Lemma js_slice_from_last l m :
  1 <= m -> js_slice_from l (- m) = skipn (Z.to_nat (js_length l - m)) l.
Proof.
  intros Hm. unfold js_slice_from, js_slice, js_relative.
  pose proof (js_length_nonneg l) as Hlen.
  destruct (Z.ltb_spec (- m) 0) as [_|?]; [|lia].
  destruct (Z.ltb_spec (js_length l) 0) as [?|_]; [lia|].
  rewrite Z.min_id.
  replace (Z.to_nat (Z.max (js_length l + - m) 0))
    with (Z.to_nat (js_length l - m)) by lia.
  apply firstn_all2. rewrite length_skipn. unfold js_length in *. lia.
Qed.

Lemma drop_from_front_skipn l m :
  0 <= m -> drop_from_front m l = skipn (Z.to_nat (js_length l - m)) l.
Proof.
  intros Hm. induction l as [|a l IH]; [now destruct (Z.to_nat _)|].
  cbn [drop_from_front].
  destruct (Z.gtb_spec (js_length (a :: l)) m) as [Hgt|Hle].
  - rewrite IH. unfold js_length in *. cbn [List.length] in *.
    replace (Z.to_nat (Z.of_nat (S (List.length l)) - m))
      with (S (Z.to_nat (Z.of_nat (List.length l) - m))) by lia.
    reflexivity.
  - replace (Z.to_nat (js_length (a :: l) - m)) with O by lia. reflexivity.
Qed.

Lemma js_index_in_range l n :
  0 <= n < js_length l -> exists a, js_index l n = Some a.
Proof.
  intros [Hlo Hhi]. unfold js_index.
  destruct (Z.ltb_spec n 0) as [?|_]; [lia|].
  destruct (nth_error l (Z.to_nat n)) as [a|] eqn:E; [now exists a|].
  apply nth_error_None in E. unfold js_length in Hhi. lia.
Qed.

Lemma js_index_last l a n :
  n = js_length l -> js_index (l ++ [a]) n = Some a.
Proof.
  intros ->. unfold js_index, js_length.
  destruct (Z.ltb_spec (Z.of_nat (List.length l)) 0) as [?|_]; [lia|].
  rewrite Nat2Z.id, nth_error_app2, Nat.sub_diag by lia. reflexivity.
Qed.
End JsArrayFacts.

(** ** The history engine *)

Section HistoryEngine.
Variables (hist : list (list Shape)) (cursor : Z) (newState : list Shape).
Variable maxSize : Z.
Hypothesis cursor_valid : 0 <= cursor < js_length hist.
Hypothesis maxSize_positive : 1 <= maxSize.

Let appended : list (list Shape) :=
  firstn (Z.to_nat (cursor + 1)) hist ++ [newState].

Lemma appended_length : js_length appended = cursor + 2.
Proof.
  unfold appended. rewrite js_length_app. unfold js_length in *.
  rewrite length_firstn. cbn [List.length]. lia.
Qed.

Lemma addToHistory_unfold :
  addToHistory hist cursor newState maxSize =
    (skipn (Z.to_nat (cursor + 2 - maxSize)) appended,
     Z.min (cursor + 2) maxSize - 1).
Proof.
  pose proof appended_length as Hlen.
  unfold addToHistory. rewrite js_slice_prefix by lia. fold appended.
  destruct (Z.gtb_spec (js_length appended) maxSize) as [Hgt|Hle].
  - rewrite js_slice_from_last by assumption. rewrite Hlen. f_equal.
    unfold js_length in *. rewrite length_skipn. lia.
  - replace (Z.to_nat (cursor + 2 - maxSize)) with O by lia.
    cbn [skipn]. f_equal. lia.
Qed.

Lemma addToHistory_refines_commit :
  addToHistory hist cursor newState maxSize =
    commit_spec hist cursor newState maxSize.
Proof.
  pose proof appended_length as Hlen.
  rewrite addToHistory_unfold. unfold commit_spec. fold appended.
  rewrite drop_from_front_skipn by lia. rewrite Hlen. f_equal.
  unfold js_length in *. rewrite length_skipn. lia.
Qed.

Lemma addToHistory_length :
  js_length (fst (addToHistory hist cursor newState maxSize)) =
    Z.min (cursor + 2) maxSize.
Proof.
  pose proof appended_length as Hlen.
  rewrite addToHistory_unfold. cbn [fst].
  unfold js_length in *. rewrite length_skipn. lia.
Qed.

Lemma addToHistory_cursor :
  snd (addToHistory hist cursor newState maxSize) =
    js_length (fst (addToHistory hist cursor newState maxSize)) - 1.
Proof. reflexivity. Qed.

Lemma addToHistory_current :
  js_index (fst (addToHistory hist cursor newState maxSize))
           (snd (addToHistory hist cursor newState maxSize)) = Some newState.
Proof.
  pose proof appended_length as Hlen.
  rewrite addToHistory_unfold. cbn [fst snd]. unfold js_index.
  destruct (Z.ltb_spec (Z.min (cursor + 2) maxSize - 1) 0) as [?|_]; [lia|].
  rewrite nth_error_skipn.
  replace (Z.to_nat (cursor + 2 - maxSize) + Z.to_nat (Z.min (cursor + 2) maxSize - 1))%nat
    with (List.length (firstn (Z.to_nat (cursor + 1)) hist)).
  - unfold appended. now rewrite nth_error_app2, Nat.sub_diag by lia.
  - rewrite length_firstn. unfold js_length in *. lia.
Qed.
End HistoryEngine.

Lemma addToHistory_default hist cursor newState hist' cursor' :
  0 <= cursor < js_length hist ->
  addToHistory hist cursor newState defaultMaxHistorySize = (hist', cursor') ->
  0 <= cursor' < js_length hist' /\
  js_index hist' cursor' = Some newState /\
  js_length hist' <= defaultMaxHistorySize.
Proof.
  intros Hcursor Hcommit.
  assert (Hmax : 1 <= defaultMaxHistorySize) by (unfold defaultMaxHistorySize; lia).
  pose proof (@addToHistory_length hist cursor newState _ Hcursor Hmax) as Hlen.
  pose proof (@addToHistory_current hist cursor newState _ Hcursor Hmax) as Hcur.
  pose proof (addToHistory_cursor hist cursor newState defaultMaxHistorySize) as Hidx.
  rewrite Hcommit in Hlen, Hcur, Hidx. cbn [fst snd] in *.
  repeat split; try assumption; lia.
Qed.

(** ** The invariant along a run *)

Lemma initial_well_formed : well_formed initialCanvasState.
Proof. split; cbn; unfold defaultMaxHistorySize; (reflexivity || lia). Qed.

Create HintDb canvas.
#[local] Hint Resolve initial_well_formed : canvas.

Ltac commit_history H :=
  match goal with
  | |- context [addToHistory ?h ?i ?n defaultMaxHistorySize] =>
      let E := fresh "Hcommit" in
      destruct (addToHistory h i n defaultMaxHistorySize) as [? ?] eqn:E;
      destruct (@addToHistory_default h i n _ _ H E) as (? & ? & ?)
  end.

Lemma canvasReducer_well_formed (e : Env) (c : Command) (s : CanvasState) :
  well_formed s ->
  exists s', ContextStore.dispatch e c s = Ok s' /\ well_formed s'.
Proof.
  intros [Hlo Hhi Hcur Hcap Hidle].
  assert (Hrange : 0 <= historyIndex s < js_length (history s)) by lia.
  unfold ContextStore.dispatch.
  destruct c; cbn [ContextStore.actions ContextStore.canvasReducer].
  - (* addShape *)
    commit_history Hrange. eexists; split; [reflexivity|].
    split; cbn; try assumption; lia.
  - (* changeColor *)
    eexists; split; [reflexivity|]. split; cbn; assumption.
  - (* changeTool *)
    eexists; split; [reflexivity|]. split; cbn; assumption.
  - (* startDrawing *)
    eexists; split; [reflexivity|]. split; cbn; try assumption; discriminate.
  - (* continueDrawing *)
    destruct (isDrawing s) eqn:Hdrawing; cbn [negb].
    + eexists; split; [reflexivity|].
      split; cbn; try assumption. rewrite Hdrawing. discriminate.
    + eexists; split; [reflexivity|].
      split; try assumption. intros _. now apply Hidle.
  - (* finishDrawing *)
    destruct (negb (isDrawing s) || (js_length (currentPath s) =? 0)).
    + eexists; split; [reflexivity|]. split; cbn; try assumption; reflexivity.
    + commit_history Hrange. eexists; split; [reflexivity|].
      split; cbn; try assumption; try lia; reflexivity.
  - (* undo *)
    unfold canUndo. destruct (Z.gtb_spec (historyIndex s) 0) as [Hgt|Hle]; cbn [negb].
    + destruct (@js_index_in_range _ (history s) (historyIndex s - 1)) as [prev Hprev];
        [lia|].
      rewrite Hprev. cbn [js_spread bindR].
      eexists; split; [reflexivity|].
      split; cbn; try assumption; try lia; reflexivity.
    + eexists; split; [reflexivity|]. split; assumption.
  - (* redo *)
    unfold canRedo.
    destruct (Z.ltb_spec (historyIndex s) (js_length (history s) - 1)) as [Hlt|Hge];
      cbn [negb].
    + destruct (@js_index_in_range _ (history s) (historyIndex s + 1)) as [next Hnext];
        [lia|].
      rewrite Hnext. cbn [js_spread bindR].
      eexists; split; [reflexivity|].
      split; cbn; try assumption; try lia; reflexivity.
    + eexists; split; [reflexivity|]. split; assumption.
  - (* clear *)
    commit_history Hrange. eexists; split; [reflexivity|].
    split; cbn; try assumption; try lia; reflexivity.
  - (* reset *)
    eexists; split; [reflexivity|]. auto with canvas.
Qed.

Lemma replay_well_formed (commands : list Command) :
  forall (world : World) (s : CanvasState),
    well_formed s ->
    exists s', replay ContextStore.dispatch world s commands = Ok s' /\ well_formed s'.
Proof.
  induction commands as [|c rest IH]; intros world s Hwf; cbn [replay].
  - now exists s.
  - destruct (canvasReducer_well_formed (world O) c Hwf) as (s1 & -> & Hwf1).
    apply IH, Hwf1.
Qed.

Lemma reachable_well_formed (s : CanvasState) : reachable s -> well_formed s.
Proof.
  intros (world & commands & Hrun).
  destruct (replay_well_formed commands world initial_well_formed) as (s' & Hrun' & Hwf).
  congruence.
Qed.

(** ** The three backends compute the same transition *)

Lemma path_tests (path : list Point) (drawing : bool) :
  drawing && (js_length path >? 0) = negb (negb drawing || (js_length path =? 0)).
Proof.
  pose proof (js_length_nonneg path).
  destruct drawing; cbn [negb andb orb]; [|reflexivity].
  destruct (Z.gtb_spec (js_length path) 0), (Z.eqb_spec (js_length path) 0);
    cbn [negb]; (reflexivity || lia).
Qed.

Ltac unfold_backend :=
  unfold ReduxStore.dispatch, ReduxStore.reducer, ZustandStore.dispatch,
    ContextStore.dispatch;
  cbn [ContextStore.actions ContextStore.canvasReducer];
  unfold ReduxStore.addShape, ReduxStore.changeColor, ReduxStore.changeTool,
    ReduxStore.startDrawing, ReduxStore.continueDrawing, ReduxStore.finishDrawing,
    ReduxStore.undo, ReduxStore.redo, ReduxStore.clear, ReduxStore.reset,
    ZustandStore.addShape, ZustandStore.changeColor, ZustandStore.changeTool,
    ZustandStore.startDrawing, ZustandStore.continueDrawing,
    ZustandStore.finishDrawing, ZustandStore.undo, ZustandStore.redo,
    ZustandStore.clear, ZustandStore.reset, ZustandStore.set, ZustandStore.get,
    Immer.produce, Immer.void, Immer.replace_with, Immer.bind, Immer.read,
    Immer.assign, Immer.lift, Immer.ret.

Ltac simpl_backend :=
  cbn -[addToHistory js_index canUndo canRedo js_length Z.gtb Z.eqb Z.add Z.sub].

Ltac split_on_source_tests :=
  repeat (match goal with
          | |- context [canUndo ?i] => destruct (canUndo i)
          | |- context [canRedo ?i ?n] => destruct (canRedo i n)
          | |- context [addToHistory ?h ?i ?n ?m] =>
              destruct (addToHistory h i n m) as [? ?]
          | |- context [js_index ?h ?i] => destruct (js_index h i)
          end; simpl_backend).

Lemma redux_as_context (e : Env) (c : Command) (s : CanvasState) :
  ReduxStore.dispatch e c s = ContextStore.dispatch e c s.
Proof.
  destruct c; unfold_backend; destruct s as [sh col tl h i drawing path];
    simpl_backend.
  6: { rewrite path_tests.
       destruct (negb drawing || (js_length path =? 0));
         simpl_backend; split_on_source_tests; reflexivity. }
  all: try (destruct drawing; reflexivity).
  all: split_on_source_tests; reflexivity.
Qed.

Lemma zustand_as_context (e : Env) (c : Command) (s : CanvasState) :
  ZustandStore.dispatch e c s = ContextStore.dispatch e c s.
Proof.
  destruct c; unfold_backend; destruct s as [sh col tl h i drawing path];
    simpl_backend.
  6: { rewrite path_tests.
       destruct (negb drawing || (js_length path =? 0));
         simpl_backend; split_on_source_tests; reflexivity. }
  all: try (destruct drawing; reflexivity).
  all: split_on_source_tests; reflexivity.
Qed.

Lemma transitionOf_as_context (storeType : StoreType) (e : Env) (c : Command)
    (s : CanvasState) :
  transitionOf storeType e c s = ContextStore.dispatch e c s.
Proof.
  destruct storeType; cbn [transitionOf];
    auto using redux_as_context, zustand_as_context.
Qed.

Lemma replay_as_context (storeType : StoreType) (commands : list Command) :
  forall (world : World) (s : CanvasState),
    replay (transitionOf storeType) world s commands =
    replay ContextStore.dispatch world s commands.
Proof.
  induction commands as [|c rest IH]; intros world s; cbn [replay]; [reflexivity|].
  rewrite transitionOf_as_context.
  destruct (ContextStore.dispatch (world O) c s); [apply IH | reflexivity].
Qed.

Lemma reachableOn_reachable (storeType : StoreType) (s : CanvasState) :
  reachableOn storeType s <-> reachable s.
Proof.
  unfold reachableOn, reachable.
  split; intros (world & commands & Hrun); exists world, commands;
    [rewrite <- (replay_as_context storeType) | rewrite replay_as_context];
    exact Hrun.
Qed.

(* ================================================================== *)
(** * The claims                                                      *)
(* ================================================================== *)

(** ** History engine *)

(** C4, as stated, at [maxSize = 0]: the entry list [[[]; []]] is longer than
    the limit, so the commit of the specification drops both entries, while
    [addToHistory] evaluates [newHistory.slice(-0)], the whole array, and
    returns two entries. *)
Lemma addToHistory_zero_limit_keeps_all :
  fst (addToHistory [[]] 0 [] 0) = [[]; []] /\
  fst (commit_spec [[]] 0 [] 0) = [] /\
  fst (addToHistory [[]] 0 [] 0) <> fst (commit_spec [[]] 0 [] 0).
Proof. repeat split; try reflexivity. cbn. discriminate. Qed.

(** C4, amended to a limit of at least one entry: for a cursor inside the
    history, [addToHistory] returns the history truncated after the cursor,
    with the new shape set appended and entries dropped from the front down
    to [maxSize]; the returned cursor is the last position; the length is the
    smaller of [cursor + 2] and [maxSize], so a commit at cursor [k] below
    the end, with [k + 2 <= maxSize], leaves [k + 2] entries. *)
Theorem addToHistory_commit_contract
    (hist : list (list Shape)) (cursor : Z) (newShapeSet : list Shape) (maxSize : Z) :
  0 <= cursor < js_length hist ->
  1 <= maxSize ->
  let result := addToHistory hist cursor newShapeSet maxSize in
  result = commit_spec hist cursor newShapeSet maxSize /\
  snd result = js_length (fst result) - 1 /\
  js_index (fst result) (snd result) = Some newShapeSet /\
  js_length (fst result) = Z.min (cursor + 2) maxSize /\
  (cursor < js_length hist - 1 -> cursor + 2 <= maxSize ->
   js_length (fst result) = cursor + 2 /\
   fst result = firstn (Z.to_nat (cursor + 1)) hist ++ [newShapeSet]).
Proof.
  intros Hcursor Hmax result. subst result.
  repeat split.
  - now apply addToHistory_refines_commit.
  - now apply addToHistory_current.
  - now apply addToHistory_length.
  - rewrite addToHistory_length by assumption. lia.
  - rewrite addToHistory_unfold by assumption. cbn [fst].
    now replace (Z.to_nat (cursor + 2 - maxSize)) with O by lia.
Qed.

Lemma addToHistory_commit_contract_witness :
  let hist : list (list Shape) := [[]; []; []] in
  let result := addToHistory hist 0 [] 50 in
  (0 <= 0 < js_length hist /\ 1 <= 50) /\
  result = commit_spec hist 0 [] 50 /\
  snd result = js_length (fst result) - 1 /\
  js_index (fst result) (snd result) = Some [] /\
  js_length (fst result) = 2 /\
  fst result = [[]; []].
Proof.
  assert (Hcursor : 0 <= 0 < js_length ([[]; []; []] : list (list Shape)))
    by (cbn; lia).
  assert (Hmax : 1 <= 50) by lia.
  destruct (@addToHistory_commit_contract [[]; []; []] 0 [] 50 Hcursor Hmax)
    as (Hspec & Hlast & Hcur & _ & Hbranch).
  destruct Hbranch as [Hlen Hentries]; [cbn; lia | lia |].
  repeat split; try assumption; lia.
Defined.

(** ** Invariants of reachable states *)

(** C2: whatever the commands and whatever the clock, every backend started
    from the initial state returns a state whose history is non-empty, whose
    [historyIndex] is a position of [history], and whose entry at that
    position is [shapes]. *)
Theorem history_cursor_invariant
    (storeType : StoreType) (world : World) (commands : list Command) :
  exists s,
    replay (transitionOf storeType) world initialCanvasState commands = Ok s /\
    history s <> [] /\
    0 <= historyIndex s < js_length (history s) /\
    js_index (history s) (historyIndex s) = Some (shapes s).
Proof.
  rewrite replay_as_context.
  destruct (replay_well_formed commands world initial_well_formed)
    as (s & Hrun & [Hlo Hhi Hcur _ _]).
  exists s. repeat split; try assumption.
  intros Hempty. rewrite Hempty in Hhi. cbn in Hhi. lia.
Qed.

(** C5: after any sequence of commands from the initial state the history
    holds at most 50 entries; sixty [clear()] in a row leave exactly 50, with
    the cursor on the last one. *)
Theorem history_cap_invariant (storeType : StoreType) (world : World) :
  (forall commands : list Command,
      exists s,
        replay (transitionOf storeType) world initialCanvasState commands = Ok s /\
        js_length (history s) <= 50) /\
  (exists s,
      replay (transitionOf storeType) world initialCanvasState (times 60 Clear) = Ok s /\
      js_length (history s) = 50 /\
      historyIndex s = 49).
Proof.
  split.
  - intros commands. rewrite replay_as_context.
    destruct (replay_well_formed commands world initial_well_formed)
      as (s & Hrun & [_ _ _ Hcap _]).
    now exists s.
  - rewrite replay_as_context. eexists. split; [vm_compute; reflexivity|].
    split; reflexivity.
Qed.

(** C9: in every state reached from the initial one, a canvas that is not
    drawing has an empty [currentPath]. *)
Theorem idle_path_is_empty
    (storeType : StoreType) (world : World) (commands : list Command) :
  exists s,
    replay (transitionOf storeType) world initialCanvasState commands = Ok s /\
    (isDrawing s = false -> currentPath s = []).
Proof.
  rewrite replay_as_context.
  destruct (replay_well_formed commands world initial_well_formed)
    as (s & Hrun & [_ _ _ _ Hidle]).
  now exists s.
Qed.

(** ** Equivalence of the backends *)

(** C3: with the clock and the random generator as a common parameter, the
    Zustand store, the Redux slice and the Context reducer give the same
    outcome on every command sequence from every seed state; from the initial
    state that outcome is a state, the same for the three. *)
Theorem cross_backend_equivalence (world : World) (commands : list Command) :
  (forall seed : CanvasState,
      replay ZustandStore.dispatch world seed commands =
        replay ReduxStore.dispatch world seed commands /\
      replay ReduxStore.dispatch world seed commands =
        replay ContextStore.dispatch world seed commands) /\
  (exists s,
      replay ZustandStore.dispatch world initialCanvasState commands = Ok s /\
      replay ReduxStore.dispatch world initialCanvasState commands = Ok s /\
      replay ContextStore.dispatch world initialCanvasState commands = Ok s).
Proof.
  pose proof (replay_as_context zustand commands world) as Hz.
  pose proof (replay_as_context redux commands world) as Hr.
  cbn [transitionOf] in Hz, Hr.
  split.
  - intros seed. now rewrite Hz, Hr.
  - destruct (replay_well_formed commands world initial_well_formed) as (s & Hrun & _).
    exists s. now rewrite Hz, Hr.
Qed.

(** ** Commands *)

Lemma undo_steps_back (e : Env) (s : CanvasState) :
  0 < historyIndex s <= js_length (history s) ->
  exists previous,
    js_index (history s) (historyIndex s - 1) = Some previous /\
    ContextStore.dispatch e Undo s =
      Ok (set_currentPath []
            (set_isDrawing false
               (set_shapes previous (set_historyIndex (historyIndex s - 1) s)))).
Proof.
  intros Hrange.
  destruct (@js_index_in_range _ (history s) (historyIndex s - 1)) as [previous Hprev];
    [lia|].
  exists previous. split; [assumption|].
  unfold ContextStore.dispatch.
  cbn [ContextStore.actions ContextStore.canvasReducer]. unfold canUndo.
  destruct (Z.gtb_spec (historyIndex s) 0) as [_|?]; [|lia].
  cbn [negb]. now rewrite Hprev.
Qed.

Lemma redo_steps_forward (e : Env) (s : CanvasState) :
  -1 <= historyIndex s < js_length (history s) - 1 ->
  exists next,
    js_index (history s) (historyIndex s + 1) = Some next /\
    ContextStore.dispatch e Redo s =
      Ok (set_currentPath []
            (set_isDrawing false
               (set_shapes next (set_historyIndex (historyIndex s + 1) s)))).
Proof.
  intros Hrange.
  destruct (@js_index_in_range _ (history s) (historyIndex s + 1)) as [next Hnext];
    [lia|].
  exists next. split; [assumption|].
  unfold ContextStore.dispatch.
  cbn [ContextStore.actions ContextStore.canvasReducer]. unfold canRedo.
  destruct (Z.ltb_spec (historyIndex s) (js_length (history s) - 1)) as [_|?]; [|lia].
  cbn [negb]. now rewrite Hnext.
Qed.

Lemma undo_at_start (e : Env) (s : CanvasState) :
  historyIndex s = 0 -> ContextStore.dispatch e Undo s = Ok s.
Proof.
  intros Hstart. unfold ContextStore.dispatch.
  cbn [ContextStore.actions ContextStore.canvasReducer].
  now rewrite Hstart.
Qed.

Lemma redo_at_end (e : Env) (s : CanvasState) :
  historyIndex s = js_length (history s) - 1 -> ContextStore.dispatch e Redo s = Ok s.
Proof.
  intros Hend. unfold ContextStore.dispatch.
  cbn [ContextStore.actions ContextStore.canvasReducer]. unfold canRedo.
  now rewrite Hend, Z.ltb_irrefl.
Qed.

Lemma replay_fixed_point (c : Command) (s : CanvasState) :
  (forall e, ContextStore.dispatch e c s = Ok s) ->
  forall (n : nat) (world : World),
    replay ContextStore.dispatch world s (times n c) = Ok s.
Proof.
  intros Hfix. induction n as [|n IH]; intros world; cbn [times repeat replay].
  - reflexivity.
  - rewrite Hfix. apply IH.
Qed.

(** C7: with the cursor on the first entry, any number of [undo()] on any
    backend returns the state it was given, and throws nothing; the same for
    [redo()] with the cursor on the last entry. *)
Theorem boundary_undo_redo_are_noops
    (storeType : StoreType) (world : World) (n : nat) (s : CanvasState) :
  (historyIndex s = 0 ->
   transitionOf storeType (world O) Undo s = Ok s /\
   replay (transitionOf storeType) world s (times n Undo) = Ok s) /\
  (historyIndex s = js_length (history s) - 1 ->
   transitionOf storeType (world O) Redo s = Ok s /\
   replay (transitionOf storeType) world s (times n Redo) = Ok s).
Proof.
  rewrite !replay_as_context, !transitionOf_as_context.
  split; intros Hedge; split.
  - now apply undo_at_start.
  - apply replay_fixed_point. intros e. now apply undo_at_start.
  - now apply redo_at_end.
  - apply replay_fixed_point. intros e. now apply redo_at_end.
Qed.

Lemma boundary_undo_redo_are_noops_witness :
  (historyIndex initialCanvasState = 0 /\
   historyIndex initialCanvasState = js_length (history initialCanvasState) - 1) /\
  replay (transitionOf redux) sampleWorld initialCanvasState (times 3 Undo) =
    Ok initialCanvasState /\
  replay (transitionOf redux) sampleWorld initialCanvasState (times 3 Redo) =
    Ok initialCanvasState.
Proof.
  destruct (boundary_undo_redo_are_noops redux sampleWorld 3 initialCanvasState)
    as [Hundo Hredo].
  split; [split; reflexivity|].
  split; [apply Hundo | apply Hredo]; reflexivity.
Defined.

(** C8: on every backend and in every state, [changeColor(c)] returns the
    state with [currentColor = c] and [changeTool(t)] the state with
    [currentTool = t]; [shapes], [history], [historyIndex], [isDrawing] and
    [currentPath] are those of the state before. *)
Theorem selection_commands_frame
    (storeType : StoreType) (e : Env) (s : CanvasState) (c : string) (t : DrawingTool) :
  (exists s',
      transitionOf storeType e (ChangeColor c) s = Ok s' /\
      currentColor s' = c /\
      currentTool s' = currentTool s /\
      shapes s' = shapes s /\ history s' = history s /\
      historyIndex s' = historyIndex s /\
      isDrawing s' = isDrawing s /\ currentPath s' = currentPath s) /\
  (exists s',
      transitionOf storeType e (ChangeTool t) s = Ok s' /\
      currentTool s' = t /\
      currentColor s' = currentColor s /\
      shapes s' = shapes s /\ history s' = history s /\
      historyIndex s' = historyIndex s /\
      isDrawing s' = isDrawing s /\ currentPath s' = currentPath s).
Proof.
  rewrite !transitionOf_as_context.
  split; eexists; (split; [reflexivity|]); cbn; repeat split.
Qed.

(** C10: in a state reached from the initial one, [undo()] then [redo()]
    with the cursor above the first entry, and [redo()] then [undo()] with
    the cursor below the last entry, both succeed and give back [shapes],
    [history] and [historyIndex], with [isDrawing = false] and an empty
    [currentPath]. *)
Theorem undo_redo_round_trip
    (storeType : StoreType) (e1 e2 : Env) (s : CanvasState) :
  reachableOn storeType s ->
  (0 < historyIndex s ->
   exists s1 s2,
     transitionOf storeType e1 Undo s = Ok s1 /\
     transitionOf storeType e2 Redo s1 = Ok s2 /\
     shapes s2 = shapes s /\ history s2 = history s /\
     historyIndex s2 = historyIndex s /\
     isDrawing s2 = false /\ currentPath s2 = []) /\
  (historyIndex s < js_length (history s) - 1 ->
   exists s1 s2,
     transitionOf storeType e1 Redo s = Ok s1 /\
     transitionOf storeType e2 Undo s1 = Ok s2 /\
     shapes s2 = shapes s /\ history s2 = history s /\
     historyIndex s2 = historyIndex s /\
     isDrawing s2 = false /\ currentPath s2 = []).
Proof.
  intros Hreach. apply reachableOn_reachable, reachable_well_formed in Hreach.
  destruct Hreach as [Hlo Hhi Hcur _ _].
  split; intros Hroom.
  - destruct (@undo_steps_back e1 s) as (previous & _ & Hundo); [lia|].
    set (s1 := set_currentPath [] _) in Hundo.
    destruct (@redo_steps_forward e2 s1) as (next & Hnext & Hredo); [cbn; lia|].
    cbn in Hnext. replace (historyIndex s - 1 + 1) with (historyIndex s) in Hnext by lia.
    assert (next = shapes s) as -> by congruence.
    exists s1. eexists. rewrite !transitionOf_as_context.
    split; [exact Hundo|]. split; [exact Hredo|].
    cbn. repeat split. lia.
  - destruct (@redo_steps_forward e1 s) as (next & _ & Hredo); [lia|].
    set (s1 := set_currentPath [] _) in Hredo.
    destruct (@undo_steps_back e2 s1) as (previous & Hprev & Hundo); [cbn; lia|].
    cbn in Hprev. replace (historyIndex s + 1 - 1) with (historyIndex s) in Hprev by lia.
    assert (previous = shapes s) as -> by congruence.
    exists s1. eexists. rewrite !transitionOf_as_context.
    split; [exact Hredo|]. split; [exact Hundo|].
    cbn. repeat split. lia.
Qed.

Lemma undo_redo_round_trip_witness :
  let s := midHistoryState in
  (reachableOn zustand s /\ 0 < historyIndex s < js_length (history s) - 1) /\
  (exists s1 s2,
     transitionOf zustand sampleEnv Undo s = Ok s1 /\
     transitionOf zustand sampleEnv Redo s1 = Ok s2 /\
     shapes s2 = shapes s /\ history s2 = history s /\
     historyIndex s2 = historyIndex s /\
     isDrawing s2 = false /\ currentPath s2 = []) /\
  (exists s1 s2,
     transitionOf zustand sampleEnv Redo s = Ok s1 /\
     transitionOf zustand sampleEnv Undo s1 = Ok s2 /\
     shapes s2 = shapes s /\ history s2 = history s /\
     historyIndex s2 = historyIndex s /\
     isDrawing s2 = false /\ currentPath s2 = []).
Proof.
  assert (Hreach : reachableOn zustand midHistoryState).
  { exists sampleWorld, (stroke ++ stroke ++ [Undo]). vm_compute. reflexivity. }
  destruct (@undo_redo_round_trip zustand sampleEnv sampleEnv midHistoryState Hreach)
    as [Hback Hforth].
  split; [split; [exact Hreach | cbn; lia]|].
  split; [apply Hback | apply Hforth]; cbn; lia.
Defined.

Ltac read_fields :=
  cbn [shapes currentColor currentTool history historyIndex isDrawing currentPath
       set_shapes set_currentColor set_currentTool set_history set_historyIndex
       set_isDrawing set_currentPath].

Lemma finishDrawing_commits (e : Env) (s : CanvasState) :
  isDrawing s = true -> currentPath s <> [] ->
  let newShapes :=
    shapes s ++ [createShape e (currentPath s) (currentColor s) (currentTool s)] in
  let committed :=
    addToHistory (history s) (historyIndex s) newShapes defaultMaxHistorySize in
  ContextStore.dispatch e FinishDrawing s =
    Ok (set_currentPath []
          (set_isDrawing false
             (set_historyIndex (snd committed)
                (set_history (fst committed) (set_shapes newShapes s))))).
Proof.
  intros Hdrawing Hpath newShapes committed. subst newShapes committed.
  unfold ContextStore.dispatch.
  cbn [ContextStore.actions ContextStore.canvasReducer].
  rewrite Hdrawing. destruct (currentPath s) as [|p path]; [contradiction|].
  cbn [negb orb js_length List.length Z.of_nat Z.eqb].
  now destruct (addToHistory _ _ _ _).
Qed.





(** ** Switching stores *)

Lemma handleStoreChange_reads_target (target : StoreType) (app : StoreManager.App) :
  StoreType_eqb target (StoreManager.currentStore app) = false ->
  StoreManager.useCanvasStore (StoreManager.handleStoreChange target app) =
    Ok match target with
       | zustand => StoreManager.zustandStore app
       | redux => StoreManager.reduxStore app
       | context => initialCanvasState
       end.
Proof.
  intros Hother. unfold StoreManager.handleStoreChange. rewrite Hother.
  now destruct target.
Qed.

(** C1, evaluated on the code: two shapes are added on the default (Zustand)
    store and the store is switched to Redux. The Zustand store holds the two
    shapes; the state read after the switch is the Redux store's own, still
    the initial one, with no shape. *)
Theorem switch_reads_target_store_unseeded :
  exists app previous,
    twoShapesOnZustand = Ok app /\
    StoreManager.currentStore app = zustand /\
    StoreManager.useCanvasStore app = Ok previous /\
    js_length (shapes previous) = 2 /\
    StoreManager.useCanvasStore (StoreManager.handleStoreChange redux app) =
      Ok initialCanvasState /\
    shapes initialCanvasState = [] /\
    shapes initialCanvasState <> shapes previous.
Proof.
  eexists. eexists.
  split; [vm_compute; reflexivity|].
  split; [reflexivity|].
  split; [reflexivity|].
  split; [reflexivity|].
  split; [reflexivity|].
  split; [reflexivity|].
  cbn. discriminate.
Qed.

(* ================================================================== *)
(** * Further properties of the code                                  *)
(* ================================================================== *)

(** ** Runs *)

Lemma replay_app (step : Transition) (before after : list Command) :
  forall (world : World) (s : CanvasState),
    replay step world s (before ++ after) =
    bindR (replay step world s before)
          (fun s' => replay step (fun k => world (List.length before + k)%nat) s' after).
Proof.
  induction before as [|c rest IH]; intros world s; cbn [app replay bindR List.length].
  - reflexivity.
  - destruct (step (world O) c s) as [s1|err]; [|reflexivity].
    now rewrite IH.
Qed.

Lemma well_formed_reachableOn (storeType : StoreType) (s : CanvasState) :
  reachableOn storeType s -> well_formed s.
Proof. intros Hreach. now apply reachable_well_formed, (reachableOn_reachable storeType). Qed.

(** X1: a backend seeded with any state that satisfies the invariant of the
    data model (cursor inside the history, entry under the cursor equal to
    [shapes], at most 50 entries, no path while idle) runs every command
    sequence without throwing, and ends in a state that satisfies it. *)
Theorem backends_keep_well_formed
    (storeType : StoreType) (world : World) (seed : CanvasState)
    (commands : list Command) :
  well_formed seed ->
  exists s,
    replay (transitionOf storeType) world seed commands = Ok s /\ well_formed s.
Proof.
  intros Hseed. rewrite replay_as_context. now apply replay_well_formed.
Qed.

Lemma midHistoryState_well_formed : well_formed midHistoryState.
Proof. split; cbn; try reflexivity; try lia. unfold defaultMaxHistorySize. lia. Qed.

Lemma backends_keep_well_formed_witness :
  well_formed midHistoryState /\
  exists s,
    replay (transitionOf redux) sampleWorld midHistoryState (stroke ++ [Undo; Clear]) = Ok s /\
    well_formed s.
Proof.
  split; [exact midHistoryState_well_formed|].
  apply (@backends_keep_well_formed redux sampleWorld midHistoryState
           (stroke ++ [Undo; Clear]) midHistoryState_well_formed).
Defined.

(** ** Commits *)

Lemma commit_result (e : Env) (c : Command) (s : CanvasState) :
  commits c s = true ->
  exists s1,
    ContextStore.dispatch e c s = Ok s1 /\
    (history s1, historyIndex s1) =
      addToHistory (history s) (historyIndex s) (shapes s1) defaultMaxHistorySize /\
    currentColor s1 = currentColor s /\ currentTool s1 = currentTool s.
Proof.
  intros Hcommits. unfold ContextStore.dispatch.
  destruct c; try discriminate Hcommits;
    cbn [ContextStore.actions ContextStore.canvasReducer].
  - destruct (addToHistory _ _ _ _) as [h' i'] eqn:Hcommit.
    eexists. split; [reflexivity|]. read_fields. now rewrite Hcommit.
  - cbn [commits] in Hcommits. rewrite path_tests in Hcommits.
    apply negb_true_iff in Hcommits. rewrite Hcommits.
    destruct (addToHistory _ _ _ _) as [h' i'] eqn:Hcommit.
    eexists. split; [reflexivity|]. read_fields. now rewrite Hcommit.
  - destruct (addToHistory _ _ _ _) as [h' i'] eqn:Hcommit.
    eexists. split; [reflexivity|]. read_fields. now rewrite Hcommit.
Qed.

Lemma commit_keeps_previous (hist : list (list Shape)) (cursor : Z)
    (current newState : list Shape) :
  0 <= cursor < js_length hist ->
  js_index hist cursor = Some current ->
  let committed := addToHistory hist cursor newState defaultMaxHistorySize in
  1 <= snd committed /\
  js_index (fst committed) (snd committed - 1) = Some current.
Proof.
  intros Hcursor Hcurrent committed. subst committed.
  assert (Hmax : 1 <= defaultMaxHistorySize) by (unfold defaultMaxHistorySize; lia).
  rewrite (@addToHistory_unfold hist cursor newState _ Hcursor Hmax).
  cbn [fst snd]. unfold defaultMaxHistorySize. split; [lia|].
  unfold js_index in *.
  destruct (Z.ltb_spec (Z.min (cursor + 2) 50 - 1 - 1) 0) as [?|_]; [lia|].
  destruct (Z.ltb_spec cursor 0) as [?|_]; [lia|].
  rewrite nth_error_skipn.
  replace (Z.to_nat (cursor + 2 - 50) + Z.to_nat (Z.min (cursor + 2) 50 - 1 - 1))%nat
    with (Z.to_nat cursor) by lia.
  rewrite nth_error_app1 by (rewrite length_firstn; unfold js_length in *; lia).
  rewrite nth_error_firstn.
  destruct (Nat.ltb_spec (Z.to_nat cursor) (Z.to_nat (cursor + 1))) as [_|?]; [|lia].
  exact Hcurrent.
Qed.

(** X2: in a reachable state, a command that commits to the history
    ([addShape], [clear], or [finishDrawing] of a non-empty stroke) is
    reverted by one [undo()]: [shapes] are again those before the command,
    also when the commit pushed the oldest entry out of a full history. *)
Theorem undo_reverts_commit
    (storeType : StoreType) (e1 e2 : Env) (c : Command) (s : CanvasState) :
  reachableOn storeType s ->
  commits c s = true ->
  exists s1 s2,
    transitionOf storeType e1 c s = Ok s1 /\
    transitionOf storeType e2 Undo s1 = Ok s2 /\
    shapes s2 = shapes s /\
    history s2 = history s1 /\
    historyIndex s2 = historyIndex s1 - 1 /\
    isDrawing s2 = false /\ currentPath s2 = [].
Proof.
  intros Hreach Hcommits. apply well_formed_reachableOn in Hreach.
  destruct Hreach as [Hlo Hhi Hcur _ _].
  destruct (commit_result e1 c s Hcommits) as (s1 & Hstep & Hhist & _).
  destruct (@commit_keeps_previous (history s) (historyIndex s) (shapes s) (shapes s1))
    as [Hroom Hprev]; [lia | assumption |].
  rewrite <- Hhist in Hroom, Hprev. cbn [fst snd] in Hroom, Hprev.
  assert (Hlast : historyIndex s1 = js_length (history s1) - 1).
  { pose proof (addToHistory_cursor (history s) (historyIndex s) (shapes s1)
                  defaultMaxHistorySize) as Hc.
    now rewrite <- Hhist in Hc. }
  destruct (@undo_steps_back e2 s1) as (previous & Hprevious & Hundo); [lia|].
  assert (previous = shapes s) as -> by congruence.
  exists s1. eexists. rewrite !transitionOf_as_context.
  split; [exact Hstep|]. split; [exact Hundo|]. read_fields. repeat split.
Qed.

Lemma undo_reverts_commit_witness :
  (reachableOn context midHistoryState /\ commits Clear midHistoryState = true) /\
  exists s1 s2,
    transitionOf context sampleEnv Clear midHistoryState = Ok s1 /\
    transitionOf context sampleEnv Undo s1 = Ok s2 /\
    shapes s2 = shapes midHistoryState /\
    history s2 = history s1 /\
    historyIndex s2 = historyIndex s1 - 1 /\
    isDrawing s2 = false /\ currentPath s2 = [].
Proof.
  assert (Hreach : reachableOn context midHistoryState).
  { exists sampleWorld, (stroke ++ stroke ++ [Undo]). vm_compute. reflexivity. }
  split; [split; [exact Hreach | reflexivity]|].
  apply (@undo_reverts_commit context sampleEnv sampleEnv Clear midHistoryState Hreach).
  reflexivity.
Defined.

(** X3: after a command that commits to the history, in any state, the
    cursor is on the last entry and [redo()] returns the state unchanged; when
    the cursor was inside the history and below the cap, the new history is
    the old one cut after the cursor plus the new [shapes]: the entries that
    could be redone are gone. *)
Theorem commit_discards_redo_branch
    (storeType : StoreType) (e1 e2 : Env) (c : Command) (s : CanvasState) :
  commits c s = true ->
  exists s1,
    transitionOf storeType e1 c s = Ok s1 /\
    historyIndex s1 = js_length (history s1) - 1 /\
    transitionOf storeType e2 Redo s1 = Ok s1 /\
    (0 <= historyIndex s < js_length (history s) ->
     historyIndex s + 2 <= defaultMaxHistorySize ->
     history s1 = firstn (Z.to_nat (historyIndex s + 1)) (history s) ++ [shapes s1]).
Proof.
  intros Hcommits.
  destruct (commit_result e1 c s Hcommits) as (s1 & Hstep & Hhist & _).
  assert (Hlast : historyIndex s1 = js_length (history s1) - 1).
  { pose proof (addToHistory_cursor (history s) (historyIndex s) (shapes s1)
                  defaultMaxHistorySize) as Hc.
    now rewrite <- Hhist in Hc. }
  exists s1. rewrite !transitionOf_as_context.
  split; [exact Hstep|]. split; [exact Hlast|].
  split; [now apply redo_at_end|].
  intros Hcursor Hbelow.
  assert (Hmax : 1 <= defaultMaxHistorySize) by (unfold defaultMaxHistorySize; lia).
  rewrite (@addToHistory_unfold (history s) (historyIndex s) (shapes s1) _ Hcursor Hmax)
    in Hhist.
  injection Hhist as Hentries _. rewrite Hentries.
  now replace (Z.to_nat (historyIndex s + 2 - defaultMaxHistorySize)) with O by lia.
Qed.

Lemma commit_discards_redo_branch_witness :
  commits (AddShape testShape) midHistoryState = true /\
  js_length (history midHistoryState) = 3 /\
  exists s1,
    transitionOf zustand sampleEnv (AddShape testShape) midHistoryState = Ok s1 /\
    historyIndex s1 = js_length (history s1) - 1 /\
    transitionOf zustand sampleEnv Redo s1 = Ok s1 /\
    history s1 = firstn 2 (history midHistoryState) ++ [shapes s1].
Proof.
  split; [reflexivity|]. split; [reflexivity|].
  destruct (@commit_discards_redo_branch zustand sampleEnv sampleEnv
              (AddShape testShape) midHistoryState eq_refl)
    as (s1 & Hstep & Hlast & Hredo & Hcut).
  exists s1. repeat split; try assumption.
  apply Hcut; cbn; unfold defaultMaxHistorySize; lia.
Defined.

(** X4: when the history is full (50 entries) and the cursor is on the last
    one, a command that commits drops exactly the oldest entry: the new
    history is the old one without its first entry, plus the new [shapes];
    it has 50 entries again and the cursor stays at 49. *)
Theorem full_history_drops_oldest
    (storeType : StoreType) (e : Env) (c : Command) (s : CanvasState) :
  js_length (history s) = 50 ->
  historyIndex s = 49 ->
  commits c s = true ->
  exists s1,
    transitionOf storeType e c s = Ok s1 /\
    history s1 = tl (history s) ++ [shapes s1] /\
    js_length (history s1) = 50 /\
    historyIndex s1 = 49.
Proof.
  intros Hfull Hcursor Hcommits.
  destruct (commit_result e c s Hcommits) as (s1 & Hstep & Hhist & _).
  assert (Hrange : 0 <= historyIndex s < js_length (history s)) by lia.
  assert (Hmax : 1 <= defaultMaxHistorySize) by (unfold defaultMaxHistorySize; lia).
  rewrite (@addToHistory_unfold (history s) (historyIndex s) (shapes s1) _ Hrange Hmax)
    in Hhist.
  injection Hhist as Hentries Hindex.
  rewrite Hcursor in Hentries, Hindex. unfold defaultMaxHistorySize in *.
  cbn in Hindex. change (Z.to_nat (49 + 2 - 50)) with 1%nat in Hentries.
  rewrite firstn_all2 in Hentries by (unfold js_length in Hfull; lia).
  destruct (history s) as [|oldest kept] eqn:Hhistory; [discriminate Hfull|].
  cbn [app skipn tl] in *.
  exists s1. rewrite transitionOf_as_context.
  split; [exact Hstep|]. split; [exact Hentries|]. split; [|exact Hindex].
  rewrite Hentries, js_length_app. unfold js_length in *. cbn [List.length] in *. lia.
Qed.

Lemma full_history_drops_oldest_witness :
  (js_length (history fullHistoryState) = 50 /\ historyIndex fullHistoryState = 49 /\
   commits (AddShape testShape) fullHistoryState = true) /\
  exists s1,
    transitionOf redux sampleEnv (AddShape testShape) fullHistoryState = Ok s1 /\
    history s1 = tl (history fullHistoryState) ++ [shapes s1] /\
    js_length (history s1) = 50 /\
    historyIndex s1 = 49.
Proof.
  split; [repeat split|].
  apply (@full_history_drops_oldest redux sampleEnv (AddShape testShape) fullHistoryState);
    reflexivity.
Defined.

(** ** Walking the history *)

Lemma replay_undo_steps (k : nat) :
  forall (world : World) (s : CanvasState),
    0 <= historyIndex s < js_length (history s) ->
    js_index (history s) (historyIndex s) = Some (shapes s) ->
    Z.of_nat k <= historyIndex s ->
    exists s',
      replay ContextStore.dispatch world s (times k Undo) = Ok s' /\
      historyIndex s' = historyIndex s - Z.of_nat k /\
      history s' = history s /\
      js_index (history s) (historyIndex s') = Some (shapes s').
Proof.
  induction k as [|k IH]; intros world s Hrange Hcur Hroom; cbn [times repeat replay].
  - exists s. repeat split; try lia. assumption.
  - destruct (@undo_steps_back (world O) s) as (previous & Hprev & ->); [lia|].
    set (s1 := set_currentPath [] _).
    destruct (IH (later world) s1) as (s' & Hrun & Hindex & Hhist & Hshapes).
    + cbn. lia.
    + exact Hprev.
    + cbn. lia.
    + exists s'. split; [exact Hrun|]. cbn in Hindex, Hhist, Hshapes.
      repeat split; try assumption. lia.
Qed.

Lemma replay_redo_steps (k : nat) :
  forall (world : World) (s : CanvasState),
    0 <= historyIndex s < js_length (history s) ->
    js_index (history s) (historyIndex s) = Some (shapes s) ->
    historyIndex s + Z.of_nat k <= js_length (history s) - 1 ->
    exists s',
      replay ContextStore.dispatch world s (times k Redo) = Ok s' /\
      historyIndex s' = historyIndex s + Z.of_nat k /\
      history s' = history s /\
      js_index (history s) (historyIndex s') = Some (shapes s').
Proof.
  induction k as [|k IH]; intros world s Hrange Hcur Hroom; cbn [times repeat replay].
  - exists s. repeat split; try lia. assumption.
  - destruct (@redo_steps_forward (world O) s) as (next & Hnext & ->); [lia|].
    set (s1 := set_currentPath [] _).
    destruct (IH (later world) s1) as (s' & Hrun & Hindex & Hhist & Hshapes).
    + cbn. lia.
    + exact Hnext.
    + cbn. lia.
    + exists s'. split; [exact Hrun|]. cbn in Hindex, Hhist, Hshapes.
      repeat split; try assumption. lia.
Qed.

(** X5: in a reachable state, [undo()] called at least [historyIndex] times
    in a row ends on the first entry of the history, and [redo()] called at
    least as many times as there are entries after the cursor ends on the
    last one; the history itself is not changed, [shapes] is the entry the
    cursor ends on, and nothing is thrown. *)
Theorem enough_undo_redo_reach_the_ends
    (storeType : StoreType) (world : World) (n : nat) (s : CanvasState) :
  reachableOn storeType s ->
  (historyIndex s <= Z.of_nat n ->
   exists s',
     replay (transitionOf storeType) world s (times n Undo) = Ok s' /\
     historyIndex s' = 0 /\ history s' = history s /\
     js_index (history s) 0 = Some (shapes s')) /\
  (js_length (history s) - 1 - historyIndex s <= Z.of_nat n ->
   exists s',
     replay (transitionOf storeType) world s (times n Redo) = Ok s' /\
     historyIndex s' = js_length (history s) - 1 /\ history s' = history s /\
     js_index (history s) (js_length (history s) - 1) = Some (shapes s')).
Proof.
  intros Hreach. apply well_formed_reachableOn in Hreach.
  destruct Hreach as [Hlo Hhi Hcur _ _].
  rewrite !replay_as_context. split; intros Henough.
  - set (k := Z.to_nat (historyIndex s)).
    replace n with (k + (n - k))%nat by lia.
    unfold times. rewrite repeat_app, replay_app. fold (times k Undo).
    destruct (replay_undo_steps k world s) as (s' & -> & Hindex & Hhist & Hshapes);
      [lia | assumption | lia |].
    cbn [bindR]. exists s'.
    assert (Hstart : historyIndex s' = 0) by lia.
    split; [|now rewrite <- Hstart].
    apply replay_fixed_point. intros e. now apply undo_at_start.
  - set (k := Z.to_nat (js_length (history s) - 1 - historyIndex s)).
    replace n with (k + (n - k))%nat by lia.
    unfold times. rewrite repeat_app, replay_app. fold (times k Redo).
    destruct (replay_redo_steps k world s) as (s' & -> & Hindex & Hhist & Hshapes);
      [lia | assumption | lia |].
    cbn [bindR]. exists s'.
    assert (Hend : historyIndex s' = js_length (history s) - 1) by lia.
    split; [|now rewrite <- Hend].
    apply replay_fixed_point. intros e. apply redo_at_end. now rewrite Hhist.
Qed.

Lemma enough_undo_redo_reach_the_ends_witness :
  (reachableOn zustand midHistoryState /\
   historyIndex midHistoryState <= 5 /\
   js_length (history midHistoryState) - 1 - historyIndex midHistoryState <= 5) /\
  (exists s',
     replay (transitionOf zustand) sampleWorld midHistoryState (times 5 Undo) = Ok s' /\
     historyIndex s' = 0 /\ history s' = history midHistoryState /\
     js_index (history midHistoryState) 0 = Some (shapes s')) /\
  (exists s',
     replay (transitionOf zustand) sampleWorld midHistoryState (times 5 Redo) = Ok s' /\
     historyIndex s' = js_length (history midHistoryState) - 1 /\
     history s' = history midHistoryState /\
     js_index (history midHistoryState) (js_length (history midHistoryState) - 1) =
       Some (shapes s')).
Proof.
  assert (Hreach : reachableOn zustand midHistoryState).
  { exists sampleWorld, (stroke ++ stroke ++ [Undo]). vm_compute. reflexivity. }
  destruct (@enough_undo_redo_reach_the_ends zustand sampleWorld 5 midHistoryState Hreach)
    as [Hundo Hredo].
  split; [split; [exact Hreach | cbn; lia]|].
  split; [apply Hundo | apply Hredo]; cbn; lia.
Defined.

(** X6: the history dropdown of the toolbar. In a reachable state, choosing
    an entry [targetIndex] of the history moves the cursor onto it with the
    needed number of [undo()] or [redo()]: afterwards [historyIndex] is
    [targetIndex], [shapes] is that entry, and the history is as before. *)
Theorem history_dropdown_jumps_to_target
    (storeType : StoreType) (world : World) (targetIndex : Z) (s : CanvasState) :
  reachableOn storeType s ->
  0 <= targetIndex < js_length (history s) ->
  exists s',
    Toolbar.onHistoryChange (transitionOf storeType) world (Some targetIndex) s = Ok s' /\
    historyIndex s' = targetIndex /\
    history s' = history s /\
    js_index (history s) targetIndex = Some (shapes s').
Proof.
  intros Hreach Htarget. apply well_formed_reachableOn in Hreach.
  destruct Hreach as [Hlo Hhi Hcur _ _].
  unfold Toolbar.onHistoryChange.
  destruct (Z.ltb_spec (targetIndex - historyIndex s) 0) as [Hback|Hnot].
  - rewrite replay_as_context.
    destruct (replay_undo_steps (Z.to_nat (Z.abs (targetIndex - historyIndex s))) world s)
      as (s' & Hrun & Hindex & Hhist & Hshapes); [lia | assumption | lia |].
    exists s'. split; [exact Hrun|].
    assert (Hthere : historyIndex s' = targetIndex) by lia.
    split; [exact Hthere|]. split; [exact Hhist|]. now rewrite <- Hthere.
  - destruct (Z.gtb_spec (targetIndex - historyIndex s) 0) as [Hforth|Hsame].
    + rewrite replay_as_context.
      destruct (replay_redo_steps (Z.to_nat (targetIndex - historyIndex s)) world s)
        as (s' & Hrun & Hindex & Hhist & Hshapes); [lia | assumption | lia |].
      exists s'. split; [exact Hrun|].
      assert (Hthere : historyIndex s' = targetIndex) by lia.
      split; [exact Hthere|]. split; [exact Hhist|]. now rewrite <- Hthere.
    + exists s. assert (Hthere : historyIndex s = targetIndex) by lia.
      split; [reflexivity|]. split; [exact Hthere|]. split; [reflexivity|].
      now rewrite <- Hthere.
Qed.

Lemma history_dropdown_jumps_to_target_witness :
  (reachableOn redux midHistoryState /\ 0 <= 2 < js_length (history midHistoryState)) /\
  exists s',
    Toolbar.onHistoryChange (transitionOf redux) sampleWorld (Some 2) midHistoryState = Ok s' /\
    historyIndex s' = 2 /\
    history s' = history midHistoryState /\
    js_index (history midHistoryState) 2 = Some (shapes s').
Proof.
  assert (Hreach : reachableOn redux midHistoryState).
  { exists sampleWorld, (stroke ++ stroke ++ [Undo]). vm_compute. reflexivity. }
  assert (Htarget : 0 <= 2 < js_length (history midHistoryState)) by (cbn; lia).
  split; [split; assumption|].
  apply (@history_dropdown_jumps_to_target redux sampleWorld 2 midHistoryState Hreach Htarget).
Defined.

(** ** Cursors outside the history *)

(** X7: the reducers are not total on states outside the invariant. With the
    cursor more than one past the end of the history, [undo()] spreads
    [history[historyIndex - 1]], which is [undefined], and throws a
    TypeError on every backend; so does [redo()] with the cursor below -1. *)
Theorem undo_redo_throw_outside_history
    (storeType : StoreType) (e : Env) (s : CanvasState) :
  (js_length (history s) < historyIndex s ->
   transitionOf storeType e Undo s = Throw TypeError) /\
  (historyIndex s < -1 ->
   transitionOf storeType e Redo s = Throw TypeError).
Proof.
  rewrite !transitionOf_as_context. unfold ContextStore.dispatch.
  cbn [ContextStore.actions ContextStore.canvasReducer].
  pose proof (js_length_nonneg (history s)) as Hlen.
  split; intros Hout.
  - unfold canUndo.
    destruct (Z.gtb_spec (historyIndex s) 0) as [_|?]; [|lia]. cbn [negb].
    unfold js_index.
    destruct (Z.ltb_spec (historyIndex s - 1) 0) as [?|_]; [lia|].
    destruct (nth_error (history s) (Z.to_nat (historyIndex s - 1))) eqn:Hentry;
      [|reflexivity].
    assert (Hin : nth_error (history s) (Z.to_nat (historyIndex s - 1)) <> None)
      by (rewrite Hentry; discriminate).
    apply nth_error_Some in Hin. unfold js_length in *. lia.
  - unfold canRedo.
    destruct (Z.ltb_spec (historyIndex s) (js_length (history s) - 1)) as [_|?]; [|lia].
    cbn [negb]. unfold js_index.
    destruct (Z.ltb_spec (historyIndex s + 1) 0) as [_|?]; [reflexivity | lia].
Qed.

Lemma undo_redo_throw_outside_history_witness :
  (js_length (history strayCursorState) < historyIndex strayCursorState /\
   historyIndex (set_historyIndex (-3) initialCanvasState) < -1) /\
  transitionOf redux sampleEnv Undo strayCursorState = Throw TypeError /\
  transitionOf zustand sampleEnv Redo (set_historyIndex (-3) initialCanvasState) =
    Throw TypeError.
Proof.
  split; [split; cbn; lia|].
  split.
  - apply (undo_redo_throw_outside_history redux sampleEnv strayCursorState). cbn. lia.
  - apply (undo_redo_throw_outside_history zustand sampleEnv
             (set_historyIndex (-3) initialCanvasState)). cbn. lia.
Defined.

(** X8: whatever the cursor, inside the history or not, [addToHistory] with
    a limit of at least one returns a history that is not empty and not longer
    than the limit, whose last entry is the new state, with the cursor on
    it. *)
Theorem addToHistory_any_cursor
    (hist : list (list Shape)) (cursor : Z) (newState : list Shape) (maxSize : Z) :
  1 <= maxSize ->
  let result := addToHistory hist cursor newState maxSize in
  1 <= js_length (fst result) <= maxSize /\
  js_length (fst result) <= js_length hist + 1 /\
  snd result = js_length (fst result) - 1 /\
  js_index (fst result) (snd result) = Some newState.
Proof.
  intros Hmax result. subst result. unfold addToHistory.
  set (truncated := js_slice hist 0 (cursor + 1)).
  assert (Htrunc : js_length truncated <= js_length hist).
  { unfold truncated, js_slice, js_length.
    rewrite length_firstn, length_skipn. lia. }
  pose proof (js_length_nonneg truncated) as Hnonneg.
  pose proof (js_length_app truncated [newState]) as Happ.
  change (js_length [newState]) with 1 in Happ.
  cbn [fst snd].
  destruct (Z.gtb_spec (js_length (truncated ++ [newState])) maxSize) as [Hover|Hfits].
  - rewrite js_slice_from_last by assumption.
    assert (Hkept : js_length (skipn (Z.to_nat (js_length (truncated ++ [newState]) - maxSize))
                                 (truncated ++ [newState])) = maxSize).
    { unfold js_length in *. rewrite length_skipn. lia. }
    rewrite Hkept. repeat split; try lia.
    unfold js_index. destruct (Z.ltb_spec (maxSize - 1) 0) as [?|_]; [lia|].
    rewrite nth_error_skipn.
    replace (Z.to_nat (js_length (truncated ++ [newState]) - maxSize) + Z.to_nat (maxSize - 1))%nat
      with (List.length truncated) by (unfold js_length in *; lia).
    now rewrite nth_error_app2, Nat.sub_diag by lia.
  - repeat split; try lia.
    apply js_index_last. lia.
Qed.

Lemma addToHistory_any_cursor_witness :
  let result := addToHistory [[]; []] (-7) [] 2 in
  1 <= 2 /\
  1 <= js_length (fst result) <= 2 /\
  js_length (fst result) <= js_length ([[]; []] : list (list Shape)) + 1 /\
  snd result = js_length (fst result) - 1 /\
  js_index (fst result) (snd result) = Some [].
Proof.
  split; [lia|].
  apply (@addToHistory_any_cursor [[]; []] (-7) [] 2). lia.
Defined.

(** ** Drawing *)

(** X9: [startDrawing(p)] and [continueDrawing(p)] never touch what is
    drawn: on every backend and in every state they return a state with the
    same [shapes], [history], [historyIndex], [currentColor] and
    [currentTool]. [startDrawing] sets [isDrawing] and restarts the path at
    [p], dropping a path in progress; [continueDrawing] appends [p] while
    drawing and returns the state as it is otherwise. *)
Theorem drawing_commands_frame
    (storeType : StoreType) (e : Env) (s : CanvasState) (p : Point) :
  (exists s',
      transitionOf storeType e (StartDrawing p) s = Ok s' /\
      isDrawing s' = true /\ currentPath s' = [p] /\
      shapes s' = shapes s /\ history s' = history s /\
      historyIndex s' = historyIndex s /\
      currentColor s' = currentColor s /\ currentTool s' = currentTool s) /\
  (exists s',
      transitionOf storeType e (ContinueDrawing p) s = Ok s' /\
      isDrawing s' = isDrawing s /\
      currentPath s' = (if isDrawing s then currentPath s ++ [p] else currentPath s) /\
      (isDrawing s = false -> s' = s) /\
      shapes s' = shapes s /\ history s' = history s /\
      historyIndex s' = historyIndex s /\
      currentColor s' = currentColor s /\ currentTool s' = currentTool s).
Proof.
  rewrite !transitionOf_as_context. unfold ContextStore.dispatch.
  cbn [ContextStore.actions ContextStore.canvasReducer].
  split.
  - eexists. split; [reflexivity|]. read_fields. repeat split.
  - destruct (isDrawing s) eqn:Hdrawing; cbn [negb];
      (eexists; split; [reflexivity|]); read_fields; rewrite ?Hdrawing;
      repeat split; discriminate.
Qed.



(** ** Switching stores and coming back *)

Lemma call_keeps_other_stores (e : Env) (c : Command) (app : StoreManager.App) :
  app_well_formed app ->
  exists app',
    StoreManager.call e c app = Ok app' /\
    app_well_formed app' /\
    StoreManager.currentStore app' = StoreManager.currentStore app /\
    (StoreManager.currentStore app <> zustand ->
     StoreManager.zustandStore app' = StoreManager.zustandStore app) /\
    (StoreManager.currentStore app <> redux ->
     StoreManager.reduxStore app' = StoreManager.reduxStore app).
Proof.
  intros [Hz Hr Hc]. unfold StoreManager.call.
  destruct (StoreManager.currentStore app) eqn:Hcurrent.
  - rewrite zustand_as_context.
    destruct (canvasReducer_well_formed e c Hz) as (s' & -> & Hwf).
    cbn [bindR]. eexists. split; [reflexivity|].
    split; [split; cbn; assumption|].
    cbn. repeat split; congruence.
  - rewrite redux_as_context.
    destruct (canvasReducer_well_formed e c Hr) as (s' & -> & Hwf).
    cbn [bindR]. eexists. split; [reflexivity|].
    split; [split; cbn; assumption|].
    cbn. repeat split; congruence.
  - destruct (StoreManager.canvasProvider app) as [state|]; [|congruence].
    destruct (canvasReducer_well_formed e c Hc) as (s' & -> & Hwf).
    cbn [bindR]. eexists. split; [reflexivity|].
    split; [split; cbn; assumption|].
    cbn. repeat split; congruence.
Qed.

Lemma callAll_keeps_other_stores (commands : list Command) :
  forall (world : World) (app : StoreManager.App),
    app_well_formed app ->
    exists app',
      callAll world commands app = Ok app' /\
      app_well_formed app' /\
      StoreManager.currentStore app' = StoreManager.currentStore app /\
      (StoreManager.currentStore app <> zustand ->
       StoreManager.zustandStore app' = StoreManager.zustandStore app) /\
      (StoreManager.currentStore app <> redux ->
       StoreManager.reduxStore app' = StoreManager.reduxStore app).
Proof.
  induction commands as [|c rest IH]; intros world app Hwf; cbn [callAll].
  - exists app. split; [reflexivity|]. split; [assumption|]. auto.
  - destruct (call_keeps_other_stores (world O) c Hwf)
      as (app1 & -> & Hwf1 & Hcur1 & Hz1 & Hr1).
    cbn [bindR].
    destruct (IH (later world) app1 Hwf1) as (app' & Hrun & Hwf' & Hcur & Hz & Hr).
    exists app'. split; [exact Hrun|]. split; [exact Hwf'|].
    rewrite Hcur1 in Hcur, Hz, Hr.
    split; [exact Hcur|].
    split; intros Hother; [rewrite Hz | rewrite Hr]; auto.
Qed.

Lemma handleStoreChange_well_formed (target : StoreType) (app : StoreManager.App) :
  app_well_formed app -> app_well_formed (StoreManager.handleStoreChange target app).
Proof.
  intros [Hz Hr Hc]. unfold StoreManager.handleStoreChange.
  destruct (StoreType_eqb target (StoreManager.currentStore app)); [now split|].
  split; cbn; try assumption.
  destruct target; (discriminate || apply initial_well_formed).
Qed.

Lemma StoreType_eqb_neq (a b : StoreType) : a <> b -> StoreType_eqb a b = false.
Proof. destruct a, b; intros Hneq; (reflexivity || now contradiction Hneq). Qed.

(** X11: going to another store and coming back. Commands given to the
    other store never throw and never reach the store that was left; back on
    the Zustand or the Redux store, which are module-level, the state read is
    the one that was left; back on the Context store, whose provider was
    unmounted in between, it is [initialCanvasState]. *)
Theorem store_switch_round_trip
    (world : World) (app : StoreManager.App) (home other : StoreType)
    (commands : list Command) :
  app_well_formed app ->
  StoreManager.currentStore app = home ->
  other <> home ->
  exists app',
    callAll world commands (StoreManager.handleStoreChange other app) = Ok app' /\
    StoreManager.useCanvasStore (StoreManager.handleStoreChange home app') =
      match home with
      | context => Ok initialCanvasState
      | _ => StoreManager.useCanvasStore app
      end.
Proof.
  intros Hwf Hhome Hother.
  pose proof (handleStoreChange_well_formed other Hwf) as Hwf1.
  destruct (callAll_keeps_other_stores commands world Hwf1)
    as (app' & Hrun & _ & Hcur & Hz & Hr).
  exists app'. split; [exact Hrun|].
  assert (Hswitched :
            StoreManager.currentStore (StoreManager.handleStoreChange other app) = other).
  { unfold StoreManager.handleStoreChange.
    rewrite Hhome, (StoreType_eqb_neq Hother). reflexivity. }
  rewrite Hswitched in Hcur, Hz, Hr.
  rewrite handleStoreChange_reads_target
    by (rewrite Hcur; apply StoreType_eqb_neq; congruence).
  unfold StoreManager.useCanvasStore. rewrite Hhome.
  unfold StoreManager.handleStoreChange in Hz, Hr.
  rewrite Hhome, (StoreType_eqb_neq Hother) in Hz, Hr. cbn in Hz, Hr.
  destruct home; [rewrite Hz | rewrite Hr |]; congruence.
Qed.

Lemma mount_well_formed (defaultStore : StoreType) :
  app_well_formed (StoreManager.mount defaultStore).
Proof.
  split; cbn; try apply initial_well_formed.
  destruct defaultStore; (discriminate || apply initial_well_formed).
Qed.

Lemma store_switch_round_trip_witness :
  (app_well_formed (StoreManager.mount zustand) /\
   StoreManager.currentStore (StoreManager.mount zustand) = zustand /\
   redux <> zustand) /\
  exists app',
    callAll sampleWorld stroke
      (StoreManager.handleStoreChange redux (StoreManager.mount zustand)) = Ok app' /\
    StoreManager.useCanvasStore (StoreManager.handleStoreChange zustand app') =
      StoreManager.useCanvasStore (StoreManager.mount zustand).
Proof.
  assert (Hother : redux <> zustand) by discriminate.
  split; [split; [apply mount_well_formed | split; [reflexivity | exact Hother]]|].
  apply (@store_switch_round_trip sampleWorld (StoreManager.mount zustand) zustand redux
           stroke (mount_well_formed zustand) eq_refl Hother).
Defined.

(** ** The canvas handlers *)



Section CanvasHandlerFacts.
Variables (canvasRef : option CanvasEditor.Canvas) (devicePixelRatio : float).






Lemma handle_idle (step : Transition) (e : Env) (ev : CanvasEditor.CanvasEvent)
    (s : CanvasState) :
  isDrawing s = false ->
  not_a_press ev = true ->
  CanvasEditor.handle step canvasRef devicePixelRatio e ev s = Ok (s, []).
Proof.
  intros Hidle Hev. unfold CanvasEditor.handle.
  destruct ev; try discriminate Hev;
    cbn [CanvasEditor.handler CanvasEditor.shapes_replaced];
    unfold CanvasEditor.draw, CanvasEditor.stopDrawing; now rewrite Hidle.
Qed.

End CanvasHandlerFacts.


(** X13: while nothing is being drawn, mouse moves, mouse up, mouse leave
    and the matching touch events do nothing: whatever their number and
    order, on any backend, the state of the store is returned as it is and no
    call is made on the 2D context. *)
Theorem idle_canvas_ignores_moves
    (step : Transition) (canvasRef : option CanvasEditor.Canvas)
    (devicePixelRatio : float)
    (world : World) (events : list CanvasEditor.CanvasEvent) (s : CanvasState) :
  isDrawing s = false ->
  forallb not_a_press events = true ->
  CanvasEditor.handleAll step canvasRef devicePixelRatio world events s = Ok (s, []).
Proof.
  intros Hidle. revert world.
  induction events as [|ev rest IH]; intros world Hevents; cbn [CanvasEditor.handleAll];
    [reflexivity|].
  cbn [forallb] in Hevents. apply andb_true_iff in Hevents as [Hev Hrest].
  rewrite (handle_idle canvasRef devicePixelRatio step (world O) ev s Hidle Hev).
  cbn [bindR]. now rewrite IH.
Qed.

Lemma idle_canvas_ignores_moves_witness :
  (isDrawing midHistoryState = false /\
   forallb not_a_press
     [mouseMoveTo (1, 2)%float; CanvasEditor.onMouseUp; CanvasEditor.onTouchEnd;
      CanvasEditor.onMouseLeave] = true) /\
  CanvasEditor.handleAll (transitionOf redux) None 1 sampleWorld
    [mouseMoveTo (1, 2)%float; CanvasEditor.onMouseUp; CanvasEditor.onTouchEnd;
     CanvasEditor.onMouseLeave] midHistoryState = Ok (midHistoryState, []).
Proof.
  split; [split; reflexivity|].
  apply (@idle_canvas_ignores_moves (transitionOf redux) None 1 sampleWorld);
    reflexivity.
Defined.

(** ** Shape identifiers *)

Lemma string_of_uint_no_underscore (d : Decimal.uint) :
  string_forall not_underscore (NilEmpty.string_of_uint d) = true.
Proof. induction d; cbn; (reflexivity || exact IHd). Qed.

Lemma show_number_no_underscore (n : Z) :
  string_forall not_underscore (show_number n) = true.
Proof.
  unfold show_number, NilZero.string_of_int, NilZero.string_of_uint.
  destruct (Z.to_int n) as [d|d]; destruct d; cbn;
    try reflexivity; apply string_of_uint_no_underscore.
Qed.

Lemma show_number_inj (n m : Z) : show_number n = show_number m -> n = m.
Proof.
  unfold show_number. intros Heq.
  assert (Hnonnil : forall k,
             Z.to_int k <> Decimal.Pos Decimal.Nil /\ Z.to_int k <> Decimal.Neg Decimal.Nil).
  { intros k. destruct k as [|p|p]; cbn; split; try discriminate;
      intros Hnil; injection Hnil as Hnil; now apply DecimalPos.Unsigned.to_uint_nonnil in Hnil. }
  apply DecimalZ.to_int_inj.
  destruct (Hnonnil n) as [Hn1 Hn2]. destruct (Hnonnil m) as [Hm1 Hm2].
  pose proof (NilZero.isi (Z.to_int n) Hn1 Hn2) as Hn.
  pose proof (NilZero.isi (Z.to_int m) Hm1 Hm2) as Hm.
  rewrite Heq in Hn. congruence.
Qed.

Lemma append_before_underscore (u v rest rest' : string) :
  string_forall not_underscore u = true ->
  string_forall not_underscore v = true ->
  (u ++ String "_" rest)%string = (v ++ String "_" rest')%string ->
  u = v /\ rest = rest'.
Proof.
  revert v. induction u as [|c u IH]; intros [|c' v] Hu Hv Heq; cbn in *.
  - injection Heq as ->. now split.
  - injection Heq as <- _. discriminate Hv.
  - injection Heq as -> _. discriminate Hu.
  - injection Heq as -> Heq.
    apply andb_true_iff in Hu as [_ Hu]. apply andb_true_iff in Hv as [_ Hv].
    destruct (IH v Hu Hv Heq) as [-> ->]. now split.
Qed.

(** X14: two calls of [generateShapeId] give the same identifier exactly
    when they read the same [Date.now()] and the same nine characters of
    [Math.random().toString(36)] after the leading "0.": shapes created in
    different milliseconds never share an identifier ([Date.now()] is an
    integer which is printed in plain decimal). *)
Theorem generateShapeId_collisions (e1 e2 : Env) :
  generateShapeId e1 = generateShapeId e2 <->
  now_id e1 = now_id e2 /\
  substring 2 9 (random36 e1) = substring 2 9 (random36 e2).
Proof.
  unfold generateShapeId. split.
  - intros Heq. cbn [String.append] in Heq.
    repeat (injection Heq as Heq).
    apply append_before_underscore in Heq as [Hnow Hrandom];
      try apply show_number_no_underscore.
    split; [now apply show_number_inj | exact Hrandom].
  - intros [-> ->]. reflexivity.
Qed.

(** ** Colours *)

Lemma hexDigitsToEnd_length (n : nat) (s : string) :
  hexDigitsToEnd n s = true -> String.length s = n.
Proof.
  revert s. induction n as [|n IH]; intros [|c s] Hhex; cbn in *;
    try discriminate; [reflexivity|].
  apply andb_true_iff in Hhex as [_ Hhex]. now rewrite (IH s Hhex).
Qed.

(** X15: [isValidHexColor] accepts only strings of seven characters, a "#"
    and six hexadecimal digits; it accepts every colour of
    [AVAILABLE_COLORS] and the [currentColor] of [initialCanvasState]. *)
Theorem isValidHexColor_accepts_the_palette :
  (forall c : string,
      isValidHexColor c = true ->
      String.length c = 7%nat /\ String.get 0 c = Some "#"%char /\
      string_forall isHexDigit (substring 1 6 c) = true) /\
  forallb isValidHexColor AVAILABLE_COLORS = true /\
  isValidHexColor (currentColor initialCanvasState) = true.
Proof.
  split; [|split; reflexivity].
  intros c Hvalid. unfold isValidHexColor in Hvalid.
  destruct c as [|first rest]; [discriminate|].
  destruct (Ascii.eqb_spec first "#") as [->|Hother].
  - split; [cbn; now rewrite (hexDigitsToEnd_length 6 rest Hvalid)|].
    split; [reflexivity|].
    do 6 (destruct rest as [|? rest]; [discriminate Hvalid|];
          cbn in Hvalid |- *; apply andb_true_iff in Hvalid as [-> Hvalid]).
    destruct rest; [reflexivity | discriminate Hvalid].
  - exfalso. destruct first as [[] [] [] [] [] [] [] []]; try discriminate Hvalid.
    now apply Hother.
Qed.

(** ** Rendering *)

Section RenderingFacts.
Import Canvas2D.
Variables (Math_pow : float -> float -> float) (Math_sqrt : float -> float).

Let neutral (op : Op) : bool := negb (is_save op || is_restore op).

Lemma drawPoints_neutral (tool : DrawingTool) (firstPoint : Point)
    (restPoints : list Point) :
  forallb neutral (drawPoints Math_pow Math_sqrt tool firstPoint restPoints) = true.
Proof.
  unfold drawPoints. destruct tool.
  - cbn [forallb]. rewrite forallb_app. cbn.
    rewrite andb_true_r. induction restPoints as [|p rest IH]; [reflexivity | exact IH].
  - now destruct (js_length (firstPoint :: restPoints) >=? 2).
  - now destruct (js_length (firstPoint :: restPoints) >=? 2).
Qed.

Lemma neutral_filters (body : list Op) :
  forallb neutral body = true ->
  filter is_save body = [] /\ filter is_restore body = [].
Proof.
  induction body as [|op body IH]; intros Hbody; [now split|].
  cbn [forallb] in Hbody. apply andb_true_iff in Hbody as [Hop Hbody].
  destruct (IH Hbody) as [Hsave Hrestore]. cbn [filter].
  rewrite Hsave, Hrestore. now destruct op.
Qed.

Lemma renderShape_brackets (shape : Shape) :
  filter is_save (renderShape Math_pow Math_sqrt shape) =
    (if has_points shape then [save] else []) /\
  filter is_restore (renderShape Math_pow Math_sqrt shape) =
    (if has_points shape then [restore] else []).
Proof.
  unfold renderShape, has_points.
  destruct (points shape) as [|firstPoint restPoints]; [now split|].
  destruct (neutral_filters _ (drawPoints_neutral (type shape) firstPoint restPoints))
    as [Hsave Hrestore].
  rewrite !filter_app, Hsave, Hrestore. now split.
Qed.
End RenderingFacts.

(** X16: [renderShape] leaves the state stack of the 2D context as it found
    it. For a shape with no point it makes no call at all; otherwise its
    calls start with [save()], end with [restore()], and have no other
    [save()] or [restore()] in between. [renderAllShapes] starts with
    [clearRect] and makes as many [save()] as [restore()], one of each for
    each shape that has points. [renderCurrentPath] makes no call for an
    empty path and as many [save()] as [restore()] otherwise. *)
Theorem renderShape_balances_save_restore
    (Math_pow : float -> float -> float) (Math_sqrt : float -> float) :
  (forall shape : Shape,
      points shape = [] -> renderShape Math_pow Math_sqrt shape = []) /\
  (forall shape : Shape,
      points shape <> [] ->
      exists body,
        renderShape Math_pow Math_sqrt shape =
          Canvas2D.save :: body ++ [Canvas2D.restore] /\
        forallb (fun op => negb (Canvas2D.is_save op || Canvas2D.is_restore op)) body = true) /\
  (forall (canvasWidth canvasHeight : float) (shapes : list Shape),
      let calls := renderAllShapes Math_pow Math_sqrt canvasWidth canvasHeight shapes in
      hd_error calls = Some (Canvas2D.clearRect 0 0 canvasWidth canvasHeight) /\
      List.length (filter Canvas2D.is_save calls) = List.length (filter has_points shapes) /\
      List.length (filter Canvas2D.is_restore calls) = List.length (filter has_points shapes)) /\
  (forall (pts : list Point) (c : string) (tool : DrawingTool),
      let calls := renderCurrentPath Math_pow Math_sqrt pts c tool in
      (pts = [] -> calls = []) /\
      List.length (filter Canvas2D.is_save calls) =
        List.length (filter Canvas2D.is_restore calls)).
Proof.
  split; [|split; [|split]].
  - intros shape Hnone. unfold renderShape. now rewrite Hnone.
  - intros shape Hsome. unfold renderShape.
    destruct (points shape) as [|firstPoint restPoints]; [contradiction|].
    exists ([Canvas2D.set_strokeStyle (color shape); Canvas2D.set_lineWidth 2;
             Canvas2D.set_lineCap "round"; Canvas2D.set_lineJoin "round";
             Canvas2D.beginPath]
            ++ drawPoints Math_pow Math_sqrt (type shape) firstPoint restPoints).
    split; [reflexivity|].
    cbn [app forallb Canvas2D.is_save Canvas2D.is_restore orb negb andb].
    apply drawPoints_neutral.
  - intros canvasWidth canvasHeight shapes calls. subst calls.
    unfold renderAllShapes. split; [reflexivity|].
    cbn [filter Canvas2D.is_save Canvas2D.is_restore].
    induction shapes as [|shape shapes [IHsave IHrestore]]; [now split|].
    destruct (renderShape_brackets Math_pow Math_sqrt shape) as [Hsave Hrestore].
    cbn [flat_map filter]. rewrite !filter_app, !length_app, Hsave, Hrestore, IHsave, IHrestore.
    now destruct (has_points shape).
  - intros pts c tool calls. subst calls. unfold renderCurrentPath.
    split; [now intros ->|].
    destruct pts as [|firstPoint restPoints]; [reflexivity|].
    destruct (@neutral_filters _ (drawPoints_neutral Math_pow Math_sqrt tool firstPoint restPoints))
      as [Hsave Hrestore].
    cbn [app filter Canvas2D.is_save Canvas2D.is_restore].
    now rewrite !filter_app, Hsave, Hrestore.
Qed.

(** X17: a click without a move, made with the rectangle or the circle
    tool, is stored but never painted. On every backend and from every
    state, [startDrawing(p)] then [finishDrawing()] persists a shape with the
    single point [p], and with a tool other than the pen [renderShape] makes
    no [stroke()] and no [strokeRect()] for that shape. *)
Theorem single_point_box_is_stored_unpainted
    (Math_pow : float -> float -> float) (Math_sqrt : float -> float)
    (storeType : StoreType) (world : World) (s : CanvasState) (p : Point) :
  currentTool s <> pen ->
  exists s' shape,
    replay (transitionOf storeType) world s [StartDrawing p; FinishDrawing] = Ok s' /\
    shapes s' = shapes s ++ [shape] /\
    points shape = [p] /\ type shape = currentTool s /\
    forallb (fun op => negb (Canvas2D.paints op)) (renderShape Math_pow Math_sqrt shape) = true.
Proof.
  intros Htool. rewrite replay_as_context. cbn [replay].
  unfold ContextStore.dispatch at 1.
  cbn [ContextStore.actions ContextStore.canvasReducer].
  set (s0 := set_currentPath [p] (set_isDrawing true s)).
  rewrite (@finishDrawing_commits _ s0) by (try reflexivity; discriminate).
  eexists. eexists. split; [reflexivity|]. subst s0. read_fields.
  split; [reflexivity|]. split; [reflexivity|]. split; [reflexivity|].
  unfold renderShape. cbn [points type createShape].
  destruct (currentTool s); [contradiction | reflexivity | reflexivity].
Qed.

Lemma single_point_box_is_stored_unpainted_witness :
  currentTool (set_currentTool rectangle initialCanvasState) <> pen /\
  exists s' shape,
    replay (transitionOf context) sampleWorld (set_currentTool rectangle initialCanvasState)
      [StartDrawing (point 10 10); FinishDrawing] = Ok s' /\
    shapes s' = shapes (set_currentTool rectangle initialCanvasState) ++ [shape] /\
    points shape = [point 10 10] /\
    type shape = currentTool (set_currentTool rectangle initialCanvasState) /\
    forallb (fun op => negb (Canvas2D.paints op))
      (renderShape (fun a _ => a) (fun a => a) shape) = true.
Proof.
  assert (Htool : currentTool (set_currentTool rectangle initialCanvasState) <> pen)
    by discriminate.
  split; [exact Htool|].
  apply (@single_point_box_is_stored_unpainted (fun a _ => a) (fun a => a) context
           sampleWorld (set_currentTool rectangle initialCanvasState) (point 10 10) Htool).
Defined.
